(** * The tensor-domain IR of torch/csrc/jit/fuser/common/tensor.h

    A shallow embedding of [IterDomain], [TensorDomain], [Tensor],
    [TensorView] and the transformation records [Split], [Merge] and
    [Reorder], followed by the properties of their accessors, of the
    [same_as] comparisons and of the compute-at binding.

    Conventions.
    - A C++ [int] is a [Z] in [[int_min, int_max]]; a conversion to [int] is
      [to_int] and a conversion to [size_t] is [to_size_t], both written out
      where the source converts.
    - A pointer to an immutable node whose address the code never compares is
      the node itself; a pointer whose address is compared is a [ptr] (the
      address together with the pointee); a nullable pointer is an [option].
    - A failing [assert], a dereferenced null pointer and a rejected
      transformation are the [Err] results of the [result] monad.  Mutable
      [TensorView]s live in the store of a [Fusion], threaded by the monad
      [M], which keeps the store a failing call leaves behind. *)

From stdpp Require Import base numbers option list list_numbers gmap.

Local Open Scope Z_scope.

(** ** Machine integers *)

Definition int_min : Z := - 2 ^ 31.
Definition int_max : Z := 2 ^ 31 - 1.

(** The values of a C++ [int]. *)
Definition is_int (z : Z) : Prop := int_min ≤ z ≤ int_max.

(** Conversion of an integer value to [int] (two's complement, 32 bits). *)
Definition to_int (z : Z) : Z := (z + 2 ^ 31) `mod` 2 ^ 32 - 2 ^ 31.

(** Conversion of an integer value to [size_t] (unsigned, 64 bits). *)
Definition to_size_t (z : Z) : Z := z `mod` 2 ^ 64.

(** ** Failure *)

Inductive error : Type :=
  | BoundsError      (* the assert of [TensorDomain::axis]; an axis out of range *)
  | NullPointer      (* a null pointer dereferenced *)
  | TypeError        (* a size that is not an integer-valued node *)
  | LegalityError.   (* a transformation rejected *)

Inductive result (A : Type) : Type :=
  | Ok (a : A)
  | Err (e : error).
Arguments Ok {A} a.
Arguments Err {A} e.

#[global] Instance error_eq_dec : EqDecision error.
Proof. solve_decision. Defined.

#[global] Instance result_eq_dec {A} `{EqDecision A} : EqDecision (result A).
Proof. solve_decision. Defined.

#[global] Instance result_ret : MRet result := @Ok.
#[global] Instance result_bind : MBind result := λ A B f m,
  match m with
  | Ok a => f a
  | Err e => Err e
  end.

(** [p->...] on a nullable pointer. *)
Definition deref {A} (p : option A) : result A :=
  match p with
  | Some a => Ok a
  | None => Err NullPointer
  end.

Definition is_Err {A} (r : result A) : Prop := ∃ e, r = Err e.

(** ** Nodes of ir.h used by tensor.h *)

Definition addr := N.

(** A pointer whose address the code compares. *)
Record ptr (A : Type) : Type := Ptr { ptr_addr : addr; ptr_obj : A }.
Arguments Ptr {A} _ _.
Arguments ptr_addr {A} _.
Arguments ptr_obj {A} _.

Module DataType.
(** Modelled from the spec: the element data types of ir.h, which is not
    in src/; tensor.h names [DataType::Int] and [DataType::Float]. *)
Inductive t : Type := Float | Int.
#[global] Instance eq_dec : EqDecision t.
Proof. solve_decision. Defined.
End DataType.

(** Modelled from the spec: the enum [ParallelType] of ir.h, which is not in
    src/: [Serial] or a parallel-strategy tag. *)
Inductive ParallelType : Type :=
  | Serial
  | Strategy (tag : N).

#[global] Instance ParallelType_eq_dec : EqDecision ParallelType.
Proof. solve_decision. Defined.

(** Modelled from the spec: the integer value node [Int] of ir.h, which is
    not in src/: a symbolic integer value that is itself a graph node.  It is
    an unresolved size ([new Int()], a node of its own, told apart by its
    name), a concrete number ([new Int(v)]), or the value of arithmetic on
    such nodes (the quotient rounded up that [split] builds and the product
    that [merge] builds). *)
Inductive Int : Type :=
  | Int_new (name : N)
  | Int_val (v : Z)
  | Int_ceilDiv (a b : Int)
  | Int_mul (a b : Int).

#[global] Instance Int_eq_dec : EqDecision Int.
Proof. solve_decision. Defined.

(** Modelled from the spec: [Int::same_as], the size node's own equality,
    by value and not by the identity of the pointer. *)
Definition Int_same_as (this other : Int) : bool := bool_decide (this = other).

(** The quotient of [x] by [y] rounded up. *)
Definition ceil_div (x y : Z) : Z := (x + y - 1) `div` y.

(** The number a size node stands for, when its leaves are all concrete. *)
Fixpoint Int_value (i : Int) : option Z :=
  match i with
  | Int_new _ => None
  | Int_val v => Some v
  | Int_ceilDiv a b =>
      x ← Int_value a; y ← Int_value b; Some (ceil_div x y)
  | Int_mul a b =>
      x ← Int_value a; y ← Int_value b; Some (x * y)
  end.

(** ** IterDomain (tensor.h:55-109) *)

Record IterDomain : Type := mkIterDomain {
  size_ : Int;
  parallel_method_ : ParallelType;
  is_reduction_domain_ : bool;
}.

#[global] Instance IterDomain_eq_dec : EqDecision IterDomain.
Proof. solve_decision. Defined.

(** [IterDomain(const Int* _size, ParallelType _parallel_method =
    ParallelType::Serial, bool _reduction_domain = false)]. *)
Definition IterDomain_new (_size : Int) : IterDomain :=
  mkIterDomain _size Serial false.

Definition isReduction (this : IterDomain) : bool := is_reduction_domain_ this.
Definition parallel_method (this : IterDomain) : ParallelType := parallel_method_ this.
Definition IterDomain_size (this : IterDomain) : Int := size_ this.

Definition IterDomain_same_as (this other : IterDomain) : bool :=
  bool_decide (isReduction this = isReduction other)
  && bool_decide (parallel_method this = parallel_method other)
  && Int_same_as (IterDomain_size this) (IterDomain_size other).

(** ** TensorDomain (tensor.h:111-150) *)

Record TensorDomain : Type := mkTensorDomain {
  domain : list IterDomain;
}.

#[global] Instance TensorDomain_eq_dec : EqDecision TensorDomain.
Proof. solve_decision. Defined.

(** [size()], a [size_type]. *)
Definition TensorDomain_size (this : TensorDomain) : Z :=
  Z.of_nat (length (domain this)).

(** [axis(int i)]: [i += size()] is computed in [size_t] and converted back
    to [int]; in [i < size()] the [int] is converted to [size_t]. *)
Definition TensorDomain_axis (this : TensorDomain) (i : Z) : result IterDomain :=
  let i :=
    if bool_decide (i < 0)
    then to_int (to_size_t (to_size_t i + TensorDomain_size this))
    else i in
  if bool_decide (0 ≤ i) && bool_decide (to_size_t i < TensorDomain_size this)
  then
    match domain this !! Z.to_nat i with
    | Some x => Ok x
    | None => Err BoundsError
    end
  else Err BoundsError.

(** The loop of [TensorDomain::same_as]: [n] iterations are left and the
    counter is [i]; [axis] takes the counter converted to [int]. *)
Fixpoint TensorDomain_same_as_loop (n : nat) (this other : TensorDomain) (i : Z)
    : result bool :=
  match n with
  | O => Ok true
  | S n' =>
      a ← TensorDomain_axis this (to_int i);
      b ← TensorDomain_axis other (to_int i);
      if negb (IterDomain_same_as a b) then Ok false
      else TensorDomain_same_as_loop n' this other (i + 1)
  end.

Definition TensorDomain_same_as (this other : TensorDomain) : result bool :=
  if negb (bool_decide (TensorDomain_size this = TensorDomain_size other))
  then Ok false
  else TensorDomain_same_as_loop (length (domain this)) this other 0.

(** Short-circuit [&&] of two comparisons that may fail. *)
Definition and_then (a b : result bool) : result bool :=
  x ← a; if x : bool then b else Ok false.
Infix "<&&>" := and_then (at level 41, right associativity).

(** ** Tensor (tensor.h:152-193) *)

(** Modelled from the spec: the contiguity descriptor of tensor_meta.h, which
    is not in src/; tensor.h only ever stores [c10::nullopt]. *)
Definition TensorContiguity : Type := list Z.

Record Tensor : Type := mkTensor {
  Tensor_dtype : DataType.t;
  contiguity_ : option TensorContiguity;
  Tensor_domain_ : option TensorDomain;
}.

(** [Tensor(DataType dt, const TensorDomain* _td = nullptr)]. *)
Definition Tensor_new (dt : DataType.t) (_td : option TensorDomain) : Tensor :=
  mkTensor dt None _td.

Definition Tensor_domain (this : Tensor) : option TensorDomain := Tensor_domain_ this.

(** Modelled from the spec: the [same_as] that [Tensor] inherits from the
    base nodes of ir.h, which is not in src/ ([Tensor] declares none of its
    own, tensor.h:171): the graph container's equality by identity. *)
Definition Statement_same_as {A} (this other : ptr A) : bool :=
  bool_decide (ptr_addr this = ptr_addr other).

(** The structural equality of two tensors that the spec's words ask of
    [TensorView::same_as]: equal data type, equal contiguity and native
    domains that are both null or [same_as]. *)
Definition Tensor_structurally_equal (a b : Tensor) : result bool :=
  if bool_decide (Tensor_dtype a = Tensor_dtype b)
     && bool_decide (contiguity_ a = contiguity_ b)
  then
    match Tensor_domain a, Tensor_domain b with
    | Some da, Some db => TensorDomain_same_as da db
    | None, None => Ok true
    | _, _ => Ok false
    end
  else Ok false.

(** ** TensorView (tensor.h:198-248) *)

Record TensorView : Type := mkTensorView {
  tensor_ : ptr Tensor;
  domain_ : option TensorDomain;
  compute_at_view_ : option addr;
  compute_at_axis_ : Z;
}.

(** [TensorView(const Tensor* _tensor, const TensorDomain* _domain)]. *)
Definition TensorView_new2 (_tensor : ptr Tensor) (_domain : option TensorDomain)
    : TensorView :=
  mkTensorView _tensor _domain None (-1).

(** [TensorView(const Tensor* _tensor)]. *)
Definition TensorView_new1 (_tensor : ptr Tensor) : TensorView :=
  mkTensorView _tensor (Tensor_domain (ptr_obj _tensor)) None (-1).

Definition TensorView_tensor (this : TensorView) : ptr Tensor := tensor_ this.
Definition TensorView_domain (this : TensorView) : option TensorDomain := domain_ this.
Definition getComputeAtView (this : TensorView) : option addr := compute_at_view_ this.
Definition getComputeAtAxis (this : TensorView) : Z := compute_at_axis_ this.

Definition TensorView_same_as (this other : TensorView) : result bool :=
  Ok (Statement_same_as (TensorView_tensor this) (TensorView_tensor other))
  <&&> (d ← deref (TensorView_domain this);
       d' ← deref (TensorView_domain other);
       TensorDomain_same_as d d').

(** ** Split, Merge, Reorder (tensor.h:254-377) *)

Record Split : Type := mkSplit {
  Split_out_ : TensorDomain;
  Split_in_ : TensorDomain;
  Split_axis_ : Z;
  Split_factor_ : Int;
}.

Definition Split_same_as (this other : Split) : result bool :=
  TensorDomain_same_as (Split_out_ this) (Split_out_ other)
  <&&> TensorDomain_same_as (Split_in_ this) (Split_in_ other)
  <&&> Ok (bool_decide (Split_axis_ this = Split_axis_ other))
  <&&> Ok (Int_same_as (Split_factor_ this) (Split_factor_ other)).

Record Merge : Type := mkMerge {
  Merge_out_ : TensorDomain;
  Merge_in_ : TensorDomain;
  Merge_axis_ : Z;
}.

Definition Merge_same_as (this other : Merge) : result bool :=
  TensorDomain_same_as (Merge_out_ this) (Merge_out_ other)
  <&&> TensorDomain_same_as (Merge_in_ this) (Merge_in_ other)
  <&&> Ok (bool_decide (Merge_axis_ this = Merge_axis_ other)).

Record Reorder : Type := mkReorder {
  Reorder_out_ : TensorDomain;
  Reorder_in_ : TensorDomain;
  pos2axis_ : list Z;
}.

Definition pos2axis (this : Reorder) : list Z := pos2axis_ this.

(** [bool same_as(const Merge* other) const] (tensor.h:365): the node
    compared with is a [Merge]. *)
Definition Reorder_same_as (this : Reorder) (other : Merge) : result bool :=
  TensorDomain_same_as (Reorder_out_ this) (Merge_out_ other)
  <&&> TensorDomain_same_as (Reorder_in_ this) (Merge_in_ other).

Inductive Expr : Type :=
  | Expr_Split (e : Split)
  | Expr_Merge (e : Merge)
  | Expr_Reorder (e : Reorder).

(** ** The store of mutable views and the monad of the scheduling calls *)

(** What the calls of tensor.h read and write of the enclosing graph: the
    [TensorView]s by address, the transformation records registered so far
    (the newest first) and the next free name. *)
Record Fusion : Type := mkFusion {
  views : gmap addr TensorView;
  exprs : list Expr;
  next_name : N;
}.

(** A call returns or fails, and leaves a store behind either way. *)
Definition M (A : Type) : Type := Fusion → result A * Fusion.

#[global] Instance M_ret : MRet M := λ A a F, (Ok a, F).
#[global] Instance M_bind : MBind M := λ A B f m F,
  match m F with
  | (Ok a, F') => f a F'
  | (Err e, F') => (Err e, F')
  end.

(** A computation that reads the store and may fail, but writes nothing. *)
Definition reading {A} (f : Fusion → result A) : M A := λ F, (f F, F).

(** [*p] for a [TensorView* p]. *)
Definition load (p : addr) : M TensorView :=
  reading (λ F, deref (views F !! p)).

(** [*p = v]. *)
Definition store (p : addr) (v : TensorView) : M unit := λ F,
  (Ok tt, mkFusion (<[p := v]> (views F)) (exprs F) (next_name F)).

(** [new] of a node that has a name or an address. *)
Definition fresh : M N := λ F,
  (Ok (next_name F), mkFusion (views F) (exprs F) (N.succ (next_name F))).

(** The registration of a transformation record with the graph. *)
Definition register (e : Expr) : M unit := λ F,
  (Ok tt, mkFusion (views F) (e :: exprs F) (next_name F)).

(** [new TensorView(...)]. *)
Definition alloc_view (v : TensorView) : M addr :=
  p ← fresh; _ ← store p v; mret p.

(** The rejection of a call unless [b] holds. *)
Definition check (b : bool) (e : error) : result unit :=
  if b then Ok tt else Err e.

(** ** TensorView::computeAt (tensor.h:235-240) *)

Section computeAt.

(** [ComputeAt_impl] is only declared in tensor.h (line 196).  Its
    arguments are pointers to [const] views: it reads the views and
    writes none. *)
Variable ComputeAt_impl : gmap addr TensorView → addr → addr → Z → result unit.

Definition computeAt (this tv : addr) (axis : Z) : M unit :=
  _ ← reading (λ F, ComputeAt_impl (views F) this tv axis);
  v ← load this;
  _ ← store this (mkTensorView (tensor_ v) (domain_ v) (Some tv) (compute_at_axis_ v));
  v ← load this;
  store this (mkTensorView (tensor_ v) (domain_ v) (compute_at_view_ v) axis).

End computeAt.

(** The index [axis(i)] reads once [i] is accepted. *)
Definition normalize_axis (td : TensorDomain) (i : Z) : Z :=
  if bool_decide (i < 0) then i + TensorDomain_size td else i.

(** Modelled from the spec: the compute-at legality procedure
    [ComputeAt_impl] of tensor.cpp, which is not in src/: [axis] must be a
    valid index into the target's domain, and the iteration domains the two
    views share below that axis must be [same_as]; anything else is a
    rejected transformation. *)
Definition ComputeAt_impl (h : gmap addr TensorView) (consumer producer : addr)
    (axis : Z) : result unit :=
  this ← deref (h !! consumer);
  target ← deref (h !! producer);
  td ← deref (TensorView_domain target);
  _ ← TensorDomain_axis td axis;
  own ← deref (TensorView_domain this);
  _ ← mapM (λ i,
        a ← TensorDomain_axis own i;
        b ← TensorDomain_axis td i;
        check (IterDomain_same_as a b) LegalityError)
      (seqZ 0 (normalize_axis td axis));
  Ok tt.

(** ** Tensor::MakeDummyTensor (tensor.h:176-184) *)

(** The loop [sizes.push_back(new IterDomain(new Int()))], [n] times. *)
Fixpoint MakeDummyTensor_loop (n : nat) (sizes : list IterDomain)
    : M (list IterDomain) :=
  match n with
  | O => mret sizes
  | S n' =>
      name ← fresh;
      MakeDummyTensor_loop n' (sizes ++ [IterDomain_new (Int_new name)])
  end.

Definition MakeDummyTensor (ndims : Z) : M (ptr Tensor) :=
  sizes ← MakeDummyTensor_loop (Z.to_nat ndims) [];
  p ← fresh;
  mret (Ptr p (Tensor_new DataType.Float (Some (mkTensorDomain sizes)))).

(** ** The transformations *)

(** Modelled from the spec: the transformation a [Split] records (built in
    tensor.cpp, which is not in src/).  [axis] must index an existing,
    non-negative axis of [td] and [factor] must be positive; the axis is
    replaced by an outer axis of size ceil(extent/factor) and an inner axis
    of size [factor], which keep its annotations. *)
Definition Split_transform (td : TensorDomain) (axis factor : Z)
    : result (TensorDomain * Split) :=
  _ ← check (bool_decide (0 ≤ axis) && bool_decide (axis < TensorDomain_size td))
        BoundsError;
  _ ← check (bool_decide (0 < factor)) LegalityError;
  id ← TensorDomain_axis td axis;
  let fact := Int_val factor in
  let ido := mkIterDomain (Int_ceilDiv (IterDomain_size id) fact)
               (parallel_method id) (isReduction id) in
  let idi := mkIterDomain fact (parallel_method id) (isReduction id) in
  let out := mkTensorDomain
    (take (Z.to_nat axis) (domain td) ++ [ido; idi]
     ++ drop (S (Z.to_nat axis)) (domain td)) in
  Ok (out, mkSplit out td axis fact).

(** Modelled from the spec: the transformation a [Merge] records (built in
    tensor.cpp, which is not in src/).  Axis [axis] and axis [axis + 1] must
    exist and agree on the reduction flag and on the parallelization
    strategy; they are replaced by one axis whose size is their product. *)
Definition Merge_transform (td : TensorDomain) (axis : Z)
    : result (TensorDomain * Merge) :=
  _ ← check (bool_decide (0 ≤ axis) && bool_decide (axis + 1 < TensorDomain_size td))
        BoundsError;
  first ← TensorDomain_axis td axis;
  second ← TensorDomain_axis td (axis + 1);
  _ ← check (bool_decide (isReduction first = isReduction second)
             && bool_decide (parallel_method first = parallel_method second))
        LegalityError;
  let merged := mkIterDomain
    (Int_mul (IterDomain_size first) (IterDomain_size second))
    (parallel_method first) (isReduction first) in
  let out := mkTensorDomain
    (take (Z.to_nat axis) (domain td) ++ [merged]
     ++ drop (S (S (Z.to_nat axis))) (domain td)) in
  Ok (out, mkMerge out td axis).

(** Modelled from the spec: the transformation a [Reorder] records (built in
    tensor.cpp, which is not in src/).  The map sends each new position to an
    old axis and must be a bijection on the positions [0 .. rank-1]: it has
    one entry per position and every old axis appears in it. *)
Definition Reorder_transform (td : TensorDomain) (new2old : gmap Z Z)
    : result (TensorDomain * Reorder) :=
  let rank := TensorDomain_size td in
  _ ← check (bool_decide (Z.of_nat (size new2old) = rank)) LegalityError;
  p2a ← mapM (λ new, match new2old !! new with
                     | Some old => Ok old
                     | None => Err LegalityError
                     end) (seqZ 0 rank);
  _ ← check (forallb (λ old, bool_decide (old ∈ p2a)) (seqZ 0 rank)) LegalityError;
  axes ← mapM (TensorDomain_axis td) p2a;
  let out := mkTensorDomain axes in
  Ok (out, mkReorder out td p2a).

(** The identity permutation of [rank] positions. *)
Definition identity_map (rank : Z) : gmap Z Z :=
  list_to_map ((λ i, (i, i)) <$> seqZ 0 rank).

(** ** The free functions split, merge and reorder (tensor.h:379-386) *)

(** Modelled from the spec: what the free functions of tensor.cpp, which is
    not in src/, have in common.  Each applies its transformation to the
    current domain of the view, registers the record as the origin of the new
    domain, and wraps the new domain with the same tensor in a new view. *)
Definition transform_view {E} (f : TensorDomain → result (TensorDomain * E))
    (node : E → Expr) (tv : addr) : M addr :=
  v ← load tv;
  td ← reading (λ _, deref (TensorView_domain v));
  r ← reading (λ _, f td);
  _ ← register (node r.2);
  alloc_view (TensorView_new2 (TensorView_tensor v) (Some r.1)).

(** Modelled from the spec: [split(const TensorView*, int axis, int factor)],
    declared at tensor.h:379. *)
Definition split (tv : addr) (axis factor : Z) : M addr :=
  transform_view (λ td, Split_transform td axis factor) Expr_Split tv.

(** Modelled from the spec: [merge(const TensorView*, int axis)], declared
    at tensor.h:382. *)
Definition merge (tv : addr) (axis : Z) : M addr :=
  transform_view (λ td, Merge_transform td axis) Expr_Merge tv.

(** Modelled from the spec: [reorder(const TensorView*,
    std::unordered_map<int, int>)], declared at tensor.h:385. *)
Definition reorder (tv : addr) (new2old : gmap Z Z) : M addr :=
  transform_view (λ td, Reorder_transform td new2old) Expr_Reorder tv.

(** Modelled from the spec: the overloads on a bare tensor (tensor.h:380,
    383, 386) view it first. *)
Definition split_Tensor (t : ptr Tensor) (axis factor : Z) : M addr :=
  tv ← alloc_view (TensorView_new1 t); split tv axis factor.

Definition merge_Tensor (t : ptr Tensor) (axis : Z) : M addr :=
  tv ← alloc_view (TensorView_new1 t); merge tv axis.

Definition reorder_Tensor (t : ptr Tensor) (new2old : gmap Z Z) : M addr :=
  tv ← alloc_view (TensorView_new1 t); reorder tv new2old.

(** ** Pairwise comparison of axes *)

(** The axes of two lists are [same_as] position by position. *)
Definition axes_same_as (l l' : list IterDomain) : bool :=
  forallb (λ p, IterDomain_same_as p.1 p.2) (zip l l').

(** ** The round trip of split and merge, as the spec words it *)

(** Splitting axis [axis] by [factor] and merging the two axes back restores
    the extent of the axis, whenever that extent is a concrete number. *)
Definition split_merge_restores_extent (td : TensorDomain) (axis factor : Z)
    : Prop :=
  ∀ s ns m nm id merged n,
    Split_transform td axis factor = Ok (s, ns) →
    Merge_transform s axis = Ok (m, nm) →
    domain td !! Z.to_nat axis = Some id →
    domain m !! Z.to_nat axis = Some merged →
    Int_value (IterDomain_size id) = Some n →
    Int_value (IterDomain_size merged) = Some n.

(** ** Sequences of compute-at calls *)



(** The rank is one an [int] counts: the counter of [same_as] and a
    normalized negative index stay below it. *)
Definition int_rank (d : TensorDomain) : Prop :=
  TensorDomain_size d - 1 ≤ int_max.

(** ** Sample nodes *)

(** The rank-3 domain [[I0, I1, 10]]: two unresolved sizes and a concrete one. *)
Definition sample_domain : TensorDomain :=
  mkTensorDomain
    [IterDomain_new (Int_new 0); IterDomain_new (Int_new 1);
     IterDomain_new (Int_val 10)].

(** The tensor of [sample_domain], at address 10. *)
Definition sample_tensor : ptr Tensor :=
  Ptr 10%N (Tensor_new DataType.Float (Some sample_domain)).

(** A graph with two views of [sample_tensor], at addresses 0 and 1. *)
Definition sample_fusion : Fusion :=
  mkFusion
    (<[0%N := TensorView_new1 sample_tensor]>
       (<[1%N := TensorView_new1 sample_tensor]> ∅))
    [] 21%N.

(** A reduction axis of size 8 followed by an iteration axis of size 4. *)
Definition sample_mixed_domain : TensorDomain :=
  mkTensorDomain
    [mkIterDomain (Int_val 8) Serial true; mkIterDomain (Int_val 4) Serial false].

(** A second tensor built from the same arguments as [sample_tensor], at
    address 20, and a view of each. *)
Definition sample_tensor_copy : ptr Tensor :=
  Ptr 20%N (Tensor_new DataType.Float (Some sample_domain)).

Definition sample_view : TensorView := TensorView_new1 sample_tensor.
Definition sample_view_copy : TensorView := TensorView_new1 sample_tensor_copy.

(** Two axes of size 4, and the records of two reorderings and of a merge
    that all have this domain as input and as output. *)
Definition sample_square : TensorDomain :=
  mkTensorDomain [IterDomain_new (Int_val 4); IterDomain_new (Int_val 4)].

Definition sample_reorder_id : Reorder :=
  mkReorder sample_square sample_square [0; 1].
Definition sample_reorder_swap : Reorder :=
  mkReorder sample_square sample_square [1; 0].
Definition sample_merge : Merge := mkMerge sample_square sample_square 0.

(** The scenario of the spec: a dummy tensor of rank 3 is viewed, axis 2 is
    split by 4, axes 2 and 3 are merged back, and the axes are reversed.  It
    returns the ranks of the four views and whether axis 0 of the last is
    [same_as] axis 2 of the one before. *)
Definition scenario : M (list (option Z) * option bool) :=
  t ← MakeDummyTensor 3;
  v0 ← alloc_view (TensorView_new1 t);
  v1 ← split v0 2 4;
  v2 ← merge v1 2;
  v3 ← reorder v2 (list_to_map [(0, 2); (1, 1); (2, 0)]);
  a ← load v0; b ← load v1; c ← load v2; d ← load v3;
  mret ((λ x, TensorDomain_size <$> TensorView_domain x) <$> [a; b; c; d],
        (dc ← TensorView_domain c; dd ← TensorView_domain d;
         x ← domain dc !! 2%nat; y ← domain dd !! 0%nat;
         Some (IterDomain_same_as y x))).

(** A legality procedure that accepts the axes 0, 1 and 2 and rejects every
    other. *)
Definition sample_impl (h : gmap addr TensorView) (this tv : addr) (axis : Z)
    : result unit :=
  check (bool_decide (0 ≤ axis) && bool_decide (axis < 3)) LegalityError.

(** The view of a tensor built without a domain, [Tensor(DataType::Float)]. *)
Definition sample_view_no_domain : TensorView :=
  TensorView_new1 (Ptr 30%N (Tensor_new DataType.Float None)).

(** [sample_domain] with its last axis of size 12 instead of 10. *)
Definition sample_domain_12 : TensorDomain :=
  mkTensorDomain
    [IterDomain_new (Int_new 0); IterDomain_new (Int_new 1);
     IterDomain_new (Int_val 12)].

(** A domain of 2^31 + 1 axes of size 1, one more than an [int] counts. *)
Definition sample_wide_domain : TensorDomain :=
  mkTensorDomain (replicate (Z.to_nat (2 ^ 31 + 1)) (IterDomain_new (Int_val 1))).

(** * Properties *)

(** ** Machine integers *)

Ltac int_arith :=
  unfold is_int, to_int, to_size_t, int_min, int_max in *;
  Z.to_euclidean_division_equations; lia.

Ltac int_lia := unfold is_int, int_min, int_max in *; lia.

Lemma to_int_id (z : Z) : is_int z → to_int z = z.
Proof. int_arith. Qed.

Lemma to_size_t_id (z : Z) : 0 ≤ z < 2 ^ 64 → to_size_t z = z.
Proof. int_arith. Qed.

Lemma to_size_t_int (z : Z) : is_int z → 0 ≤ z → to_size_t z = z.
Proof. int_arith. Qed.

(** [i += size()] on a negative [int]: the sum, converted to [int]. *)
Lemma to_int_add_size (i s : Z) :
  to_int (to_size_t (to_size_t i + s)) = to_int (i + s).
Proof. int_arith. Qed.

(** ** TensorDomain::axis *)

Lemma TensorDomain_size_nonneg (d : TensorDomain) : 0 ≤ TensorDomain_size d.
Proof. unfold TensorDomain_size. lia. Qed.

(** [axis] on an index that needs no normalization. *)
Lemma TensorDomain_axis_nonneg_eq (d : TensorDomain) (i : Z) :
  0 ≤ i < 2 ^ 64 →
  TensorDomain_axis d i =
    if bool_decide (i < TensorDomain_size d)
    then match domain d !! Z.to_nat i with
         | Some x => Ok x
         | None => Err BoundsError
         end
    else Err BoundsError.
Proof.
  intros H0. unfold TensorDomain_axis. cbv zeta.
  rewrite (bool_decide_eq_false_2 (i < 0)) by lia.
  rewrite to_size_t_id by done.
  by rewrite (bool_decide_eq_true_2 (0 ≤ i)) by lia.
Qed.

(** [axis] on a negative index: the rank is added once, in [int]. *)
Lemma TensorDomain_axis_neg_eq (d : TensorDomain) (i : Z) :
  is_int i → i < 0 → i + TensorDomain_size d ≤ int_max →
  TensorDomain_axis d i =
    if bool_decide (0 ≤ i + TensorDomain_size d)
    then match domain d !! Z.to_nat (i + TensorDomain_size d) with
         | Some x => Ok x
         | None => Err BoundsError
         end
    else Err BoundsError.
Proof.
  intros Hi Hneg Hmax. pose proof (TensorDomain_size_nonneg d) as Hs.
  assert (is_int (i + TensorDomain_size d)) as Hsum
    by int_lia.
  unfold TensorDomain_axis. cbv zeta.
  rewrite (bool_decide_eq_true_2 (i < 0)) by done.
  rewrite to_int_add_size, (to_int_id _ Hsum).
  case_bool_decide as Hge; [|done].
  rewrite to_size_t_int by done.
  by rewrite (bool_decide_eq_true_2 (i + _ < _)) by lia.
Qed.

Lemma TensorDomain_axis_nonneg (d : TensorDomain) (i : Z) :
  is_int i → 0 ≤ i < TensorDomain_size d →
  ∃ x, domain d !! Z.to_nat i = Some x ∧ TensorDomain_axis d i = Ok x.
Proof.
  intros Hi Hr. rewrite TensorDomain_axis_nonneg_eq by int_lia.
  rewrite bool_decide_eq_true_2 by lia.
  destruct (lookup_lt_is_Some_2 (domain d) (Z.to_nat i)) as [x Hx].
  { unfold TensorDomain_size in Hr. lia. }
  exists x. by rewrite Hx.
Qed.

Lemma TensorDomain_axis_lookup (d : TensorDomain) (i : Z) (x : IterDomain) :
  0 ≤ i < 2 ^ 64 → domain d !! Z.to_nat i = Some x →
  TensorDomain_axis d i = Ok x.
Proof.
  intros Hi Hx. rewrite TensorDomain_axis_nonneg_eq, Hx by done.
  apply lookup_lt_Some in Hx.
  rewrite bool_decide_eq_true_2; [done|]. unfold TensorDomain_size. lia.
Qed.

Lemma TensorDomain_axis_negative (d : TensorDomain) (i : Z) :
  is_int i → - TensorDomain_size d ≤ i < 0 →
  i + TensorDomain_size d ≤ int_max →
  TensorDomain_axis d i = TensorDomain_axis d (i + TensorDomain_size d).
Proof.
  intros Hi Hr Hmax. pose proof (TensorDomain_size_nonneg d) as Hs.
  rewrite TensorDomain_axis_neg_eq by (done || lia).
  rewrite TensorDomain_axis_nonneg_eq by int_lia.
  by rewrite !bool_decide_eq_true_2 by lia.
Qed.

Lemma TensorDomain_axis_too_large (d : TensorDomain) (i : Z) :
  is_int i → TensorDomain_size d ≤ i → TensorDomain_axis d i = Err BoundsError.
Proof.
  intros Hi Hge. pose proof (TensorDomain_size_nonneg d) as Hs.
  rewrite TensorDomain_axis_nonneg_eq by int_lia.
  by rewrite bool_decide_eq_false_2 by lia.
Qed.

Lemma TensorDomain_axis_too_small (d : TensorDomain) (i : Z) :
  is_int i → i < - TensorDomain_size d → TensorDomain_axis d i = Err BoundsError.
Proof.
  intros Hi Hlt. pose proof (TensorDomain_size_nonneg d) as Hs.
  rewrite TensorDomain_axis_neg_eq by (done || int_lia).
  by rewrite bool_decide_eq_false_2 by lia.
Qed.

(** C4.  For a domain of rank [r] and an [int] [i], [axis(i)] returns the
    [i]-th axis for [0 ≤ i < r]; for [-r ≤ i < 0] it adds [r] to [i] once and
    returns that axis (the sum is an [int] as soon as the rank is), so that
    [axis(-1)] is [axis(r - 1)]; and it fails with the bounds error for every
    [i ≥ r] and every [i < -r]. *)
Theorem TensorDomain_axis_bounds (d : TensorDomain) (i : Z) :
  is_int i →
  let r := TensorDomain_size d in
  (0 ≤ i < r →
     ∃ x, domain d !! Z.to_nat i = Some x ∧ TensorDomain_axis d i = Ok x) ∧
  (- r ≤ i < 0 → i + r ≤ int_max →
     ∃ x, domain d !! Z.to_nat (i + r) = Some x
          ∧ TensorDomain_axis d i = Ok x
          ∧ TensorDomain_axis d (i + r) = Ok x) ∧
  (0 < r → r - 1 ≤ int_max →
     TensorDomain_axis d (-1) = TensorDomain_axis d (r - 1)) ∧
  (r ≤ i ∨ i < - r → TensorDomain_axis d i = Err BoundsError).
Proof.
  intros Hi r. pose proof (TensorDomain_size_nonneg d) as Hs.
  split; [|split; [|split]].
  - intros Hr. by apply TensorDomain_axis_nonneg.
  - intros Hr Hmax.
    destruct (TensorDomain_axis_nonneg d (i + r)) as (x & Hx & Hax);
      [int_lia|subst r; lia|].
    exists x. split; [done|]. split; [|done].
    by rewrite TensorDomain_axis_negative.
  - intros Hr Hmax.
    replace (r - 1) with (-1 + TensorDomain_size d) by (subst r; lia).
    apply TensorDomain_axis_negative; subst r; int_lia.
  - intros [Hge|Hlt].
    + by apply TensorDomain_axis_too_large.
    + by apply TensorDomain_axis_too_small.
Qed.

Lemma TensorDomain_axis_bounds_witness :
  is_int (-1) ∧
  TensorDomain_axis sample_domain (-1) = TensorDomain_axis sample_domain 2.
Proof.
  assert (is_int (-1)) as Hi by (unfold is_int, int_min, int_max; lia).
  split; [exact Hi|].
  apply (TensorDomain_axis_bounds sample_domain (-1) Hi); by vm_compute.
Defined.

(** ** IterDomain::same_as *)

Lemma Int_same_as_refl (x : Int) : Int_same_as x x = true.
Proof. unfold Int_same_as. by apply bool_decide_eq_true_2. Qed.

Lemma Int_same_as_sym (x y : Int) : Int_same_as x y = Int_same_as y x.
Proof. unfold Int_same_as. apply bool_decide_ext. split; congruence. Qed.

Lemma IterDomain_same_as_true (a b : IterDomain) :
  IterDomain_same_as a b = true ↔
    isReduction a = isReduction b
    ∧ parallel_method a = parallel_method b
    ∧ Int_same_as (IterDomain_size a) (IterDomain_size b) = true.
Proof.
  unfold IterDomain_same_as.
  rewrite !andb_true_iff, !bool_decide_eq_true. tauto.
Qed.

Lemma IterDomain_same_as_refl (a : IterDomain) : IterDomain_same_as a a = true.
Proof. apply IterDomain_same_as_true. auto using Int_same_as_refl. Qed.

Lemma IterDomain_same_as_sym (a b : IterDomain) :
  IterDomain_same_as a b = IterDomain_same_as b a.
Proof.
  unfold IterDomain_same_as. rewrite (Int_same_as_sym (IterDomain_size a)).
  f_equal. f_equal; apply bool_decide_ext; split; congruence.
Qed.

(** C8.  [IterDomain::same_as] is reflexive and symmetric, and it holds of
    two domains exactly when their reduction flags are equal, their parallel
    types are equal and their size nodes are [same_as]: in particular of two
    domains constructed apart from such arguments. *)
Theorem IterDomain_same_as_structural :
  (∀ a, IterDomain_same_as a a = true) ∧
  (∀ a b, IterDomain_same_as a b = true ↔ IterDomain_same_as b a = true) ∧
  (∀ a b, IterDomain_same_as a b = true ↔
     isReduction a = isReduction b
     ∧ parallel_method a = parallel_method b
     ∧ Int_same_as (IterDomain_size a) (IterDomain_size b) = true) ∧
  (∀ s s' p p' r r',
     r = r' → p = p' → Int_same_as s s' = true →
     IterDomain_same_as (mkIterDomain s p r) (mkIterDomain s' p' r') = true).
Proof.
  split; [exact IterDomain_same_as_refl|].
  split; [intros a b; by rewrite IterDomain_same_as_sym|].
  split; [exact IterDomain_same_as_true|].
  intros s s' p p' r r' -> -> Hs. by apply IterDomain_same_as_true.
Qed.

(** ** TensorDomain::same_as *)

Lemma TensorDomain_same_as_loop_eq (n i : nat) (this other : TensorDomain) :
  length (domain this) = length (domain other) →
  TensorDomain_size this - 1 ≤ int_max →
  (i + n)%nat = length (domain this) →
  TensorDomain_same_as_loop n this other (Z.of_nat i) =
    Ok (axes_same_as (drop i (domain this)) (drop i (domain other))).
Proof.
  intros Hlen Hmax. revert i. induction n as [|n IH]; intros i Hi.
  - simpl. rewrite !drop_ge by lia. done.
  - assert (is_int (Z.of_nat i)) as Hint
      by (unfold TensorDomain_size in Hmax; int_lia).
    destruct (lookup_lt_is_Some_2 (domain this) i) as [a Ha]; [lia|].
    destruct (lookup_lt_is_Some_2 (domain other) i) as [b Hb]; [lia|].
    cbn [TensorDomain_same_as_loop]. rewrite to_int_id by done.
    rewrite (TensorDomain_axis_lookup this _ a), (TensorDomain_axis_lookup other _ b)
      by (int_lia || by rewrite Nat2Z.id).
    cbn [mbind result_bind].
    rewrite (drop_S _ _ _ Ha), (drop_S _ _ _ Hb).
    unfold axes_same_as. cbn [zip zip_with forallb fst snd].
    destruct (IterDomain_same_as a b); [|done]. cbn [negb andb].
    replace (Z.of_nat i + 1) with (Z.of_nat (S i)) by lia.
    rewrite IH by lia. done.
Qed.

(** Within the ranks an [int] counts, [same_as] compares the ranks and then
    the axes pairwise, in order. *)
Lemma TensorDomain_same_as_eq (this other : TensorDomain) :
  TensorDomain_size this - 1 ≤ int_max →
  TensorDomain_same_as this other =
    Ok (bool_decide (length (domain this) = length (domain other))
        && axes_same_as (domain this) (domain other)).
Proof.
  intros Hmax. unfold TensorDomain_same_as, TensorDomain_size.
  case_bool_decide as Hlen.
  - apply Nat2Z.inj in Hlen. rewrite bool_decide_eq_true_2 by done.
    cbn [negb andb]. by rewrite (TensorDomain_same_as_loop_eq _ 0).
  - rewrite bool_decide_eq_false_2 by (intros ?; apply Hlen; lia). done.
Qed.

Lemma axes_same_as_refl (l : list IterDomain) : axes_same_as l l = true.
Proof.
  unfold axes_same_as. induction l as [|x l IH]; [done|].
  cbn [zip zip_with forallb fst snd]. by rewrite IterDomain_same_as_refl.
Qed.

Lemma TensorDomain_same_as_refl (d : TensorDomain) :
  TensorDomain_size d - 1 ≤ int_max → TensorDomain_same_as d d = Ok true.
Proof.
  intros Hmax. rewrite TensorDomain_same_as_eq by done.
  by rewrite bool_decide_eq_true_2, axes_same_as_refl.
Qed.

(** ** The constructors of TensorView *)

(** C10.  A view built by either constructor has no compute-at view and
    the compute-at axis -1, and the constructor of one argument takes the
    native domain of the tensor as the domain of the view. *)
Theorem TensorView_new_unset (t : ptr Tensor) (d : option TensorDomain) :
  getComputeAtView (TensorView_new2 t d) = None
  ∧ getComputeAtAxis (TensorView_new2 t d) = -1
  ∧ getComputeAtView (TensorView_new1 t) = None
  ∧ getComputeAtAxis (TensorView_new1 t) = -1
  ∧ TensorView_domain (TensorView_new1 t) = Tensor_domain (ptr_obj t)
  ∧ TensorView_domain (TensorView_new2 t d) = d
  ∧ TensorView_tensor (TensorView_new1 t) = t
  ∧ TensorView_tensor (TensorView_new2 t d) = t.
Proof. repeat split. Qed.

(** ** TensorView::computeAt *)

(** The calls of [M], run on a store. *)
Ltac run_M :=
  unfold mbind, M_bind, mret, M_ret, load, store, fresh, register, reading;
  cbn beta iota.

Section computeAt_properties.

Variable impl : gmap addr TensorView → addr → addr → Z → result unit.

(** A rejection by the legality procedure is the result of the call, and
    the store is the one before the call. *)
Lemma computeAt_rejected (F : Fusion) (this tv : addr) (axis : Z) (e : error) :
  impl (views F) this tv axis = Err e →
  computeAt impl this tv axis F = (Err e, F).
Proof.
  intros Himpl. unfold computeAt. run_M. by rewrite Himpl.
Qed.

(** An accepted call binds the target and the axis, and nothing else. *)
Lemma computeAt_accepted (F : Fusion) (this tv : addr) (axis : Z) (v : TensorView) :
  impl (views F) this tv axis = Ok tt →
  views F !! this = Some v →
  computeAt impl this tv axis F =
    (Ok tt,
     mkFusion
       (<[this := mkTensorView (tensor_ v) (domain_ v) (Some tv) axis]> (views F))
       (exprs F) (next_name F)).
Proof.
  intros Himpl Hv. unfold computeAt. run_M. rewrite Himpl, Hv.
  cbn [deref views exprs next_name]. rewrite lookup_insert_eq.
  cbn [deref views exprs next_name tensor_ domain_ compute_at_view_].
  by rewrite insert_insert_eq.
Qed.

End computeAt_properties.

(** The legality procedure rejects an axis beyond the rank of the target. *)
Lemma ComputeAt_impl_rejects (h : gmap addr TensorView) (consumer producer : addr)
    (axis : Z) (target : TensorView) (td : TensorDomain) :
  h !! producer = Some target → TensorView_domain target = Some td →
  is_int axis → TensorDomain_size td < axis →
  is_Err (ComputeAt_impl h consumer producer axis).
Proof.
  intros Hp Htd Hi Hax. unfold ComputeAt_impl, is_Err.
  destruct (h !! consumer) as [this|]; cbn [deref mbind result_bind]; [|eauto].
  rewrite Hp. cbn [deref mbind result_bind]. rewrite Htd.
  cbn [deref mbind result_bind].
  rewrite TensorDomain_axis_too_large by (done || lia). eauto.
Qed.

(** C1.  Let the legality procedure reject every axis beyond the rank of the
    target.  Then [v.computeAt(t, axis)] with such an axis fails, and the
    store after the call is the store before it: [getComputeAtView] and
    [getComputeAtAxis] of [v] are what they were. *)
Theorem computeAt_out_of_range_unchanged
    (impl : gmap addr TensorView → addr → addr → Z → result unit)
    (F : Fusion) (this tv : addr) (axis : Z)
    (target : TensorView) (td : TensorDomain) :
  (∀ h c p a t d,
     h !! p = Some t → TensorView_domain t = Some d →
     is_int a → TensorDomain_size d < a → is_Err (impl h c p a)) →
  views F !! tv = Some target → TensorView_domain target = Some td →
  is_int axis → TensorDomain_size td < axis →
  ∃ e F',
    computeAt impl this tv axis F = (Err e, F')
    ∧ F' = F
    ∧ getComputeAtView <$> views F' !! this = getComputeAtView <$> views F !! this
    ∧ getComputeAtAxis <$> views F' !! this = getComputeAtAxis <$> views F !! this.
Proof.
  intros Himpl Ht Htd Hi Hax.
  destruct (Himpl (views F) this tv axis target td) as [e He]; [done..|].
  exists e, F. by rewrite (computeAt_rejected impl F this tv axis e He).
Qed.

Lemma computeAt_out_of_range_unchanged_witness :
  ∃ e F',
    computeAt ComputeAt_impl 0%N 1%N 4 sample_fusion = (Err e, F')
    ∧ F' = sample_fusion
    ∧ getComputeAtView <$> views F' !! 0%N
      = getComputeAtView <$> views sample_fusion !! 0%N
    ∧ getComputeAtAxis <$> views F' !! 0%N
      = getComputeAtAxis <$> views sample_fusion !! 0%N.
Proof.
  apply (computeAt_out_of_range_unchanged ComputeAt_impl sample_fusion 0%N 1%N 4
           (TensorView_new1 sample_tensor) sample_domain).
  - exact ComputeAt_impl_rejects.
  - reflexivity.
  - reflexivity.
  - unfold is_int, int_min, int_max. lia.
  - vm_compute. reflexivity.
Defined.

(** ** Lists with a middle part replaced *)

Section splice.

Context {A : Type}.
Implicit Types l mid rest : list A.

Lemma lookup_splice_lt l mid rest (n i : nat) :
  (n ≤ length l)%nat → (i < n)%nat →
  (take n l ++ mid ++ rest) !! i = l !! i.
Proof.
  intros Hn Hi. rewrite lookup_app_l by (rewrite length_take; lia).
  by apply lookup_take_lt.
Qed.

Lemma lookup_splice_mid l mid rest (n j : nat) :
  (n ≤ length l)%nat →
  (take n l ++ mid ++ rest) !! (n + j)%nat = (mid ++ rest) !! j.
Proof.
  intros Hn. rewrite lookup_app_r by (rewrite length_take; lia).
  f_equal. rewrite length_take. lia.
Qed.

Lemma lookup_splice_first l x rest (n : nat) :
  (n ≤ length l)%nat → (take n l ++ x :: rest) !! n = Some x.
Proof.
  intros Hn. rewrite lookup_app_r by (rewrite length_take; lia).
  rewrite length_take. by replace (n - n `min` length l)%nat with 0%nat by lia.
Qed.

Lemma lookup_splice_second l x y rest (n : nat) :
  (n ≤ length l)%nat → (take n l ++ x :: y :: rest) !! S n = Some y.
Proof.
  intros Hn. rewrite lookup_app_r by (rewrite length_take; lia).
  rewrite length_take. by replace (S n - n `min` length l)%nat with 1%nat by lia.
Qed.

Lemma lookup_splice_ge l mid (n m i : nat) :
  (n ≤ length l)%nat → (n + length mid ≤ i)%nat →
  (take n l ++ mid ++ drop m l) !! i = l !! (m + (i - n - length mid))%nat.
Proof.
  intros Hn Hi. replace i with (n + (i - n))%nat at 1 by lia.
  rewrite lookup_splice_mid by done.
  rewrite lookup_app_r by lia. by rewrite lookup_drop.
Qed.

Lemma length_splice l mid (n m : nat) :
  (n ≤ m)%nat → (m ≤ length l)%nat →
  length (take n l ++ mid ++ drop m l) = (length l + length mid - (m - n))%nat.
Proof.
  intros Hn Hm. rewrite !length_app, length_take, length_drop. lia.
Qed.

End splice.

(** ** Split *)

Lemma ceil_div_bounds (x y : Z) :
  0 < y → (ceil_div x y - 1) * y < x ≤ ceil_div x y * y.
Proof. intros Hy. unfold ceil_div. Z.to_euclidean_division_equations. nia. Qed.

(** An accepted split, and the list of axes it builds. *)
Lemma Split_transform_eq (td : TensorDomain) (axis factor : Z) (id : IterDomain) :
  is_int axis → 0 ≤ axis → 0 < factor →
  domain td !! Z.to_nat axis = Some id →
  let fact := Int_val factor in
  let out := mkTensorDomain
    (take (Z.to_nat axis) (domain td)
     ++ [mkIterDomain (Int_ceilDiv (IterDomain_size id) fact)
           (parallel_method id) (isReduction id);
         mkIterDomain fact (parallel_method id) (isReduction id)]
     ++ drop (S (Z.to_nat axis)) (domain td)) in
  Split_transform td axis factor = Ok (out, mkSplit out td axis fact).
Proof.
  intros Hi H0 Hf Hid. cbv zeta. unfold Split_transform.
  pose proof (lookup_lt_Some _ _ _ Hid) as Hlt.
  rewrite !bool_decide_eq_true_2 by (unfold TensorDomain_size; lia).
  cbn [andb check mbind result_bind].
  rewrite (TensorDomain_axis_lookup td axis id) by (done || int_lia).
  done.
Qed.

(** C2.  Splitting a valid axis [a] by a positive factor [f] yields a domain
    of one more axis; axis [a] of it is the outer axis, of size
    ceil(size/f), axis [a + 1] is the inner axis, of size [f], both annotated
    as the axis they replace; the axes before [a] are carried over in place
    and those after [a] one position further. *)
Theorem Split_transform_shape (td : TensorDomain) (axis factor : Z) :
  is_int axis → 0 ≤ axis < TensorDomain_size td → 0 < factor →
  ∃ out node id outer inner,
    Split_transform td axis factor = Ok (out, node)
    ∧ TensorDomain_size out = TensorDomain_size td + 1
    ∧ domain td !! Z.to_nat axis = Some id
    ∧ domain out !! Z.to_nat axis = Some outer
    ∧ domain out !! Z.to_nat (axis + 1) = Some inner
    ∧ IterDomain_size outer = Int_ceilDiv (IterDomain_size id) (Int_val factor)
    ∧ (∀ n, Int_value (IterDomain_size id) = Some n →
         ∃ q, Int_value (IterDomain_size outer) = Some q
              ∧ (q - 1) * factor < n ≤ q * factor)
    ∧ Int_value (IterDomain_size inner) = Some factor
    ∧ parallel_method outer = parallel_method id
    ∧ isReduction outer = isReduction id
    ∧ parallel_method inner = parallel_method id
    ∧ isReduction inner = isReduction id
    ∧ (∀ i : nat, (i < Z.to_nat axis)%nat → domain out !! i = domain td !! i)
    ∧ (∀ i : nat, (Z.to_nat axis < i)%nat → domain out !! S i = domain td !! i)
    ∧ node = mkSplit out td axis (Int_val factor).
Proof.
  intros Hi Hr Hf.
  destruct (lookup_lt_is_Some_2 (domain td) (Z.to_nat axis)) as [id Hid].
  { unfold TensorDomain_size in Hr. lia. }
  pose proof (lookup_lt_Some _ _ _ Hid) as Hlt.
  eexists _, _, id, _, _.
  split; [apply (Split_transform_eq td axis factor id); done || lia|].
  cbn [domain].
  split.
  { unfold TensorDomain_size. cbn [domain].
    rewrite length_splice by lia. cbn [length]. lia. }
  split; [done|].
  split; [apply lookup_splice_first; lia|].
  split.
  { replace (Z.to_nat (axis + 1)) with (S (Z.to_nat axis)) by lia.
    apply lookup_splice_second. lia. }
  split; [done|].
  split.
  { intros n Hn. exists (ceil_div n factor).
    unfold IterDomain_size in *. cbn [size_ Int_value].
    rewrite Hn. split; [done|]. by apply ceil_div_bounds. }
  do 5 (split; [done|]).
  split.
  { intros i Hlti. by rewrite lookup_splice_lt by lia. }
  split; [|done].
  intros i Hgt.
  rewrite lookup_splice_ge by (cbn [length]; lia).
  cbn [length]. f_equal. lia.
Qed.

Lemma Split_transform_shape_witness :
  ∃ out node id outer inner,
    Split_transform sample_domain 2 4 = Ok (out, node)
    ∧ TensorDomain_size out = TensorDomain_size sample_domain + 1
    ∧ domain sample_domain !! Z.to_nat 2 = Some id
    ∧ domain out !! Z.to_nat 2 = Some outer
    ∧ domain out !! Z.to_nat (2 + 1) = Some inner
    ∧ IterDomain_size outer = Int_ceilDiv (IterDomain_size id) (Int_val 4)
    ∧ (∀ n, Int_value (IterDomain_size id) = Some n →
         ∃ q, Int_value (IterDomain_size outer) = Some q
              ∧ (q - 1) * 4 < n ≤ q * 4)
    ∧ Int_value (IterDomain_size inner) = Some 4
    ∧ parallel_method outer = parallel_method id
    ∧ isReduction outer = isReduction id
    ∧ parallel_method inner = parallel_method id
    ∧ isReduction inner = isReduction id
    ∧ (∀ i : nat, (i < Z.to_nat 2)%nat → domain out !! i = domain sample_domain !! i)
    ∧ (∀ i : nat, (Z.to_nat 2 < i)%nat → domain out !! S i = domain sample_domain !! i)
    ∧ node = mkSplit out sample_domain 2 (Int_val 4).
Proof.
  apply (Split_transform_shape sample_domain 2 4).
  - unfold is_int, int_min, int_max. lia.
  - vm_compute. split; [discriminate|reflexivity].
  - lia.
Defined.

(** ** Merge *)

(** An accepted merge, and the list of axes it builds. *)
Lemma Merge_transform_eq (td : TensorDomain) (axis : Z) (first second : IterDomain) :
  is_int axis → 0 ≤ axis →
  domain td !! Z.to_nat axis = Some first →
  domain td !! S (Z.to_nat axis) = Some second →
  isReduction first = isReduction second →
  parallel_method first = parallel_method second →
  let out := mkTensorDomain
    (take (Z.to_nat axis) (domain td)
     ++ [mkIterDomain (Int_mul (IterDomain_size first) (IterDomain_size second))
           (parallel_method first) (isReduction first)]
     ++ drop (S (S (Z.to_nat axis))) (domain td)) in
  Merge_transform td axis = Ok (out, mkMerge out td axis).
Proof.
  intros Hi H0 H1 H2 Hred Hpar. cbv zeta. unfold Merge_transform.
  pose proof (lookup_lt_Some _ _ _ H2) as Hlt.
  rewrite !bool_decide_eq_true_2 by (unfold TensorDomain_size; lia).
  cbn [andb check mbind result_bind].
  rewrite (TensorDomain_axis_lookup td axis first) by (done || int_lia).
  rewrite (TensorDomain_axis_lookup td (axis + 1) second)
    by (int_lia || by replace (Z.to_nat (axis + 1)) with (S (Z.to_nat axis)) by lia).
  cbn [mbind result_bind].
  by rewrite !bool_decide_eq_true_2 by done.
Qed.

(** A merge of two axes that disagree is rejected. *)
Lemma Merge_transform_rejects (td : TensorDomain) (axis : Z) (first second : IterDomain) :
  is_int axis → 0 ≤ axis →
  domain td !! Z.to_nat axis = Some first →
  domain td !! S (Z.to_nat axis) = Some second →
  isReduction first ≠ isReduction second
  ∨ parallel_method first ≠ parallel_method second →
  Merge_transform td axis = Err LegalityError.
Proof.
  intros Hi H0 H1 H2 Hdiff. unfold Merge_transform.
  pose proof (lookup_lt_Some _ _ _ H2) as Hlt.
  rewrite !bool_decide_eq_true_2 by (unfold TensorDomain_size; lia).
  cbn [andb check mbind result_bind].
  rewrite (TensorDomain_axis_lookup td axis first) by (done || int_lia).
  rewrite (TensorDomain_axis_lookup td (axis + 1) second)
    by (int_lia || by replace (Z.to_nat (axis + 1)) with (S (Z.to_nat axis)) by lia).
  cbn [mbind result_bind].
  destruct Hdiff as [Hred|Hpar].
  - by rewrite (bool_decide_eq_false_2 _ Hred).
  - rewrite (bool_decide_eq_false_2 _ Hpar). by rewrite andb_false_r.
Qed.

(** C3.  Merging axis [a] with axis [a + 1] fails with the legality error
    whenever the two axes differ in the reduction flag or in the
    parallelization strategy, and then no merged domain is produced: a merge
    that returns a domain has merged two axes that agree on both. *)
Theorem Merge_transform_illegal (td : TensorDomain) (axis : Z)
    (first second : IterDomain) :
  is_int axis → 0 ≤ axis →
  domain td !! Z.to_nat axis = Some first →
  domain td !! Z.to_nat (axis + 1) = Some second →
  (isReduction first ≠ isReduction second
   ∨ parallel_method first ≠ parallel_method second →
   Merge_transform td axis = Err LegalityError)
  ∧ (∀ out node,
       Merge_transform td axis = Ok (out, node) →
       isReduction first = isReduction second
       ∧ parallel_method first = parallel_method second).
Proof.
  intros Hi H0 H1 H2.
  replace (Z.to_nat (axis + 1)) with (S (Z.to_nat axis)) in H2 by lia.
  split.
  - by apply Merge_transform_rejects.
  - intros out node Hok.
    destruct (decide (isReduction first = isReduction second)) as [Hred|Hred];
      [destruct (decide (parallel_method first = parallel_method second))
         as [Hpar|Hpar]; [done|]|].
    + rewrite (Merge_transform_rejects td axis first second) in Hok; auto.
      discriminate.
    + rewrite (Merge_transform_rejects td axis first second) in Hok; auto.
      discriminate.
Qed.

Lemma Merge_transform_illegal_witness :
  Merge_transform sample_mixed_domain 0 = Err LegalityError.
Proof.
  apply (Merge_transform_illegal sample_mixed_domain 0
           (mkIterDomain (Int_val 8) Serial true)
           (mkIterDomain (Int_val 4) Serial false)).
  - unfold is_int, int_min, int_max. lia.
  - lia.
  - reflexivity.
  - reflexivity.
  - left. simpl. discriminate.
Defined.

(** ** Split, then merge *)

(** Merging the two axes of a split puts one axis where the split axis was. *)
Lemma merge_of_split_list {A} (l : list A) (n : nat) (x y z : A) :
  (n ≤ length l)%nat →
  let s := take n l ++ [x; y] ++ drop (S n) l in
  take n s ++ [z] ++ drop (S (S n)) s = take n l ++ [z] ++ drop (S n) l.
Proof.
  intros Hn. cbv zeta.
  rewrite take_app_length' by (rewrite length_take; lia).
  rewrite drop_app_ge by (rewrite length_take; lia).
  rewrite length_take.
  by replace (S (S n) - n `min` length l)%nat with 2%nat by lia.
Qed.

Lemma ceil_div_mul_bounds (n f : Z) :
  0 < f →
  n ≤ ceil_div n f * f < n + f ∧ (ceil_div n f * f = n ↔ (f | n)).
Proof.
  intros Hf. pose proof (ceil_div_bounds n f Hf) as Hb.
  split; [lia|]. split.
  - intros Heq. by exists (ceil_div n f).
  - intros [k ->]. f_equal; nia.
Qed.

(** C5, as the code has it.  Splitting axis [a] by [f] and merging axis [a]
    with axis [a + 1] of the result succeeds and yields a domain of the
    original rank, with the other axes where they were and the merged axis
    annotated as the original.  When the original extent is a concrete [n],
    the merged extent is ceil(n/f)·f: at least [n], less than [n + f], and
    [n] itself exactly when [f] divides [n]. *)
Theorem split_then_merge (td : TensorDomain) (axis factor : Z) :
  is_int axis → 0 ≤ axis < TensorDomain_size td → 0 < factor →
  ∃ s ns m nm id merged,
    Split_transform td axis factor = Ok (s, ns)
    ∧ Merge_transform s axis = Ok (m, nm)
    ∧ TensorDomain_size m = TensorDomain_size td
    ∧ domain td !! Z.to_nat axis = Some id
    ∧ domain m !! Z.to_nat axis = Some merged
    ∧ parallel_method merged = parallel_method id
    ∧ isReduction merged = isReduction id
    ∧ (∀ i : nat, i ≠ Z.to_nat axis → domain m !! i = domain td !! i)
    ∧ (∀ n, Int_value (IterDomain_size id) = Some n →
         Int_value (IterDomain_size merged) = Some (ceil_div n factor * factor)
         ∧ n ≤ ceil_div n factor * factor < n + factor
         ∧ (ceil_div n factor * factor = n ↔ (factor | n))).
Proof.
  intros Hi Hr Hf.
  destruct (lookup_lt_is_Some_2 (domain td) (Z.to_nat axis)) as [id Hid].
  { unfold TensorDomain_size in Hr. lia. }
  pose proof (lookup_lt_Some _ _ _ Hid) as Hlt.
  pose proof (Split_transform_eq td axis factor id Hi (proj1 Hr) Hf Hid) as Hs.
  cbv zeta in Hs.
  set (ido := mkIterDomain (Int_ceilDiv (IterDomain_size id) (Int_val factor))
                (parallel_method id) (isReduction id)) in *.
  set (idi := mkIterDomain (Int_val factor) (parallel_method id) (isReduction id)) in *.
  set (s := mkTensorDomain _) in Hs.
  assert (domain s !! Z.to_nat axis = Some ido) as Ho
    by (apply lookup_splice_first; lia).
  assert (domain s !! S (Z.to_nat axis) = Some idi) as Hin
    by (apply lookup_splice_second; lia).
  pose proof (Merge_transform_eq s axis ido idi Hi (proj1 Hr) Ho Hin eq_refl eq_refl)
    as Hm.
  cbv zeta in Hm. cbn [domain s] in Hm.
  rewrite merge_of_split_list in Hm by lia.
  eexists s, _, _, _, id, _.
  split; [exact Hs|]. split; [exact Hm|]. cbn [domain].
  split.
  { unfold TensorDomain_size. cbn [domain].
    rewrite length_splice by lia. cbn [length]. lia. }
  split; [done|].
  split; [apply lookup_splice_first; lia|].
  do 2 (split; [done|]).
  split.
  { intros i Hne. destruct (decide (i < Z.to_nat axis)%nat) as [Hlti|Hgei].
    - by rewrite lookup_splice_lt by lia.
    - rewrite lookup_splice_ge by (cbn [length]; lia).
      cbn [length]. f_equal. lia. }
  intros n Hn. split; [|by apply ceil_div_mul_bounds].
  unfold IterDomain_size in *. cbn [size_ ido idi Int_value]. by rewrite Hn.
Qed.

Lemma split_then_merge_witness :
  ∃ s ns m nm id merged,
    Split_transform sample_domain 2 4 = Ok (s, ns)
    ∧ Merge_transform s 2 = Ok (m, nm)
    ∧ TensorDomain_size m = TensorDomain_size sample_domain
    ∧ domain sample_domain !! Z.to_nat 2 = Some id
    ∧ domain m !! Z.to_nat 2 = Some merged
    ∧ parallel_method merged = parallel_method id
    ∧ isReduction merged = isReduction id
    ∧ (∀ i : nat, i ≠ Z.to_nat 2 → domain m !! i = domain sample_domain !! i)
    ∧ (∀ n, Int_value (IterDomain_size id) = Some n →
         Int_value (IterDomain_size merged) = Some (ceil_div n 4 * 4)
         ∧ n ≤ ceil_div n 4 * 4 < n + 4
         ∧ (ceil_div n 4 * 4 = n ↔ (4 | n))).
Proof.
  apply (split_then_merge sample_domain 2 4).
  - unfold is_int, int_min, int_max. lia.
  - vm_compute. split; [discriminate|reflexivity].
  - lia.
Defined.

(** The extent 10 split by 4 and merged back is 3·4 = 12. *)
Lemma split_merge_extent_not_restored :
  ¬ split_merge_restores_extent sample_domain 2 4.
Proof.
  intros H.
  specialize (H _ _ _ _ (IterDomain_new (Int_val 10)) _ 10
                eq_refl eq_refl eq_refl eq_refl eq_refl).
  vm_compute in H. discriminate H.
Qed.

(** ** Reorder *)

(** [mapM] in [result], when the function succeeds on every element. *)
Lemma mapM_result_Ok {A B} (f : A → result B) (l : list A) (k : list B) :
  Forall2 (λ x y, f x = Ok y) l k → mapM f l = Ok k.
Proof.
  induction 1 as [|x y l k Hxy _ IH]; [done|].
  cbn [mapM]. rewrite Hxy. cbn [mbind result_bind]. by rewrite IH.
Qed.

Lemma mapM_result_inv {A B} (f : A → result B) (l : list A) (k : list B) :
  mapM f l = Ok k → Forall2 (λ x y, f x = Ok y) l k.
Proof.
  revert k. induction l as [|x l IH]; intros k; cbn [mapM].
  - intros [= <-]. constructor.
  - destruct (f x) as [y|] eqn:Hx; cbn [mbind result_bind]; [|done].
    destruct (mapM f l) as [k'|]; cbn [mbind result_bind]; [|done].
    intros [= <-]. constructor; [done|]. by apply IH.
Qed.

(** An accepted reordering keeps the rank and puts at each new position the
    axis the map names for it. *)
Lemma Reorder_transform_permutes (td out : TensorDomain) (new2old : gmap Z Z)
    (node : Reorder) (new : Z) :
  Reorder_transform td new2old = Ok (out, node) →
  0 ≤ new < TensorDomain_size td →
  TensorDomain_size out = TensorDomain_size td
  ∧ ∃ old x,
      new2old !! new = Some old
      ∧ pos2axis node !! Z.to_nat new = Some old
      ∧ TensorDomain_axis td old = Ok x
      ∧ domain out !! Z.to_nat new = Some x.
Proof.
  unfold Reorder_transform. intros Hok Hnew.
  destruct (check _ _); cbn [mbind result_bind] in Hok; [|done].
  destruct (mapM _ (seqZ 0 _)) as [p2a|] eqn:Hp2a;
    cbn [mbind result_bind] in Hok; [|done].
  destruct (check _ _); cbn [mbind result_bind] in Hok; [|done].
  destruct (mapM _ p2a) as [axes|] eqn:Haxes;
    cbn [mbind result_bind] in Hok; [|done].
  injection Hok as <- <-.
  apply mapM_result_inv in Hp2a, Haxes.
  pose proof (Forall2_length _ _ _ Hp2a) as Hlen1.
  pose proof (Forall2_length _ _ _ Haxes) as Hlen2.
  rewrite length_seqZ in Hlen1.
  split; [unfold TensorDomain_size in *; cbn [domain]; lia|].
  destruct (lookup_lt_is_Some_2 p2a (Z.to_nat new)) as [old Hold]; [lia|].
  destruct (lookup_lt_is_Some_2 axes (Z.to_nat new)) as [x Hx]; [lia|].
  exists old, x. cbn [pos2axis pos2axis_ domain].
  split; [|split; [done|split; [|done]]].
  - assert (seqZ 0 (TensorDomain_size td) !! Z.to_nat new = Some new) as Hseq
      by (apply lookup_seqZ; lia).
    pose proof (Forall2_lookup_lr _ _ _ _ _ _ Hp2a Hseq Hold) as Hm.
    cbv beta in Hm. destruct (new2old !! new) as [old'|]; congruence.
  - exact (Forall2_lookup_lr _ _ _ _ _ _ Haxes Hold Hx).
Qed.

Lemma identity_map_keys (rank : Z) :
  ((λ i : Z, (i, i)) <$> seqZ 0 rank).*1 = seqZ 0 rank.
Proof. rewrite <- list_fmap_compose. apply list_fmap_id. Qed.

Lemma identity_map_lookup (rank i : Z) :
  0 ≤ i < rank → identity_map rank !! i = Some i.
Proof.
  intros Hi. unfold identity_map. apply elem_of_list_to_map_1.
  - rewrite identity_map_keys. apply NoDup_seqZ.
  - apply (list_elem_of_fmap_2 (λ i : Z, (i, i))). apply elem_of_seqZ. lia.
Qed.

Lemma identity_map_lookup_None (rank i : Z) :
  ¬ (0 ≤ i < rank) → identity_map rank !! i = None.
Proof.
  intros Hi. unfold identity_map. apply not_elem_of_list_to_map_1.
  rewrite identity_map_keys, elem_of_seqZ. lia.
Qed.

Lemma identity_map_size (rank : Z) :
  0 ≤ rank → Z.of_nat (size (identity_map rank)) = rank.
Proof.
  intros Hr. unfold identity_map. rewrite map_size_list_to_map.
  - rewrite length_fmap, length_seqZ. lia.
  - rewrite identity_map_keys. apply NoDup_seqZ.
Qed.

(** The positions [0 .. rank-1] read the axes of the domain, in order. *)
Lemma mapM_axis_seqZ (td : TensorDomain) :
  TensorDomain_size td ≤ 2 ^ 64 →
  mapM (TensorDomain_axis td) (seqZ 0 (TensorDomain_size td)) = Ok (domain td).
Proof.
  intros Hmax. apply mapM_result_Ok. apply Forall2_same_length_lookup_2.
  { rewrite length_seqZ. unfold TensorDomain_size. lia. }
  intros i j x Hj Hx. apply lookup_seqZ in Hj as [-> Hlt].
  apply TensorDomain_axis_lookup; [lia|]. by rewrite Z.add_0_l, Nat2Z.id.
Qed.

(** C9.  Reordering a domain by the identity permutation ([i] at each
    position [i] below the rank) is accepted and yields a domain that is
    [same_as] the input: it has the same axes in the same order. *)
Theorem Reorder_identity (td : TensorDomain) :
  TensorDomain_size td ≤ int_max →
  (∀ i, 0 ≤ i < TensorDomain_size td →
        identity_map (TensorDomain_size td) !! i = Some i)
  ∧ ∃ out node,
      Reorder_transform td (identity_map (TensorDomain_size td)) = Ok (out, node)
      ∧ TensorDomain_same_as out td = Ok true
      ∧ domain out = domain td
      ∧ pos2axis node = seqZ 0 (TensorDomain_size td).
Proof.
  intros Hmax. pose proof (TensorDomain_size_nonneg td) as Hs.
  split; [intros i Hi; by apply identity_map_lookup|].
  exists td, (mkReorder td td (seqZ 0 (TensorDomain_size td))).
  split; [|split; [apply TensorDomain_same_as_refl; lia|done]].
  unfold Reorder_transform.
  rewrite identity_map_size by done.
  rewrite bool_decide_eq_true_2 by done. cbn [check mbind result_bind].
  rewrite (mapM_result_Ok _ _ (seqZ 0 (TensorDomain_size td))).
  2:{ apply Forall2_same_length_lookup_2; [done|].
      intros i x y Hx Hy. rewrite Hx in Hy. injection Hy as <-.
      apply lookup_seqZ in Hx as [-> Hlt].
      by rewrite identity_map_lookup by lia. }
  cbn [mbind result_bind].
  rewrite (proj2 (forallb_forall _ _)).
  2:{ intros old Hin. by apply bool_decide_eq_true_2, list_elem_of_In. }
  cbn [check mbind result_bind].
  rewrite mapM_axis_seqZ by int_lia. cbn [mbind result_bind].
  by destruct td.
Qed.

Lemma Reorder_identity_witness :
  ∃ out node,
    Reorder_transform sample_domain (identity_map (TensorDomain_size sample_domain))
      = Ok (out, node)
    ∧ TensorDomain_same_as out sample_domain = Ok true
    ∧ domain out = domain sample_domain
    ∧ pos2axis node = seqZ 0 (TensorDomain_size sample_domain).
Proof.
  apply (Reorder_identity sample_domain). by vm_compute.
Defined.

(** ** TensorView::same_as *)

(** What the comparison computes: the two views are bound to the same
    [Tensor] object and their domains are [same_as]. *)
Lemma TensorView_same_as_true (a b : TensorView) :
  TensorView_same_as a b = Ok true ↔
    ptr_addr (TensorView_tensor a) = ptr_addr (TensorView_tensor b)
    ∧ ∃ d d', TensorView_domain a = Some d ∧ TensorView_domain b = Some d'
              ∧ TensorDomain_same_as d d' = Ok true.
Proof.
  unfold TensorView_same_as, and_then, Statement_same_as.
  cbn [mbind result_bind]. case_bool_decide as Hptr.
  - destruct (TensorView_domain a) as [d|], (TensorView_domain b) as [d'|];
      cbn [deref mbind result_bind].
    + split; [eauto 6|]. by intros (_ & ? & ? & [= <-] & [= <-] & ?).
    + split; [done|]. by intros (_ & ? & ? & _ & ? & _).
    + split; [done|]. by intros (_ & ? & ? & ? & _).
    + split; [done|]. by intros (_ & ? & ? & ? & _).
  - split; [done|]. by intros [? _].
Qed.

(** C7, on two views of two tensors built from the same arguments: the
    tensors are structurally equal and the domains are [same_as], and
    [same_as] of the views is false. *)
Theorem TensorView_same_as_compares_tensor_identity :
  Tensor_structurally_equal
    (ptr_obj (TensorView_tensor sample_view))
    (ptr_obj (TensorView_tensor sample_view_copy)) = Ok true
  ∧ TensorView_domain sample_view = Some sample_domain
  ∧ TensorView_domain sample_view_copy = Some sample_domain
  ∧ TensorDomain_same_as sample_domain sample_domain = Ok true
  ∧ TensorView_same_as sample_view sample_view_copy = Ok false.
Proof. repeat split; by vm_compute. Qed.

(** ** Reorder::same_as *)

(** The comparison reads the domains of the [Reorder] and of the [Merge] it
    is given, and not the permutation. *)
Lemma Reorder_same_as_ignores_pos2axis (out_ in_ : TensorDomain) (p p' : list Z)
    (other : Merge) :
  Reorder_same_as (mkReorder out_ in_ p) other
  = Reorder_same_as (mkReorder out_ in_ p') other.
Proof. reflexivity. Qed.

(** C6, on the code: [Reorder::same_as] takes a [Merge].  Two reorderings
    of different permutations are both [same_as] a merge that has their
    input and output domains. *)
Theorem Reorder_same_as_compares_with_Merge :
  pos2axis sample_reorder_id ≠ pos2axis sample_reorder_swap
  ∧ Reorder_same_as sample_reorder_id sample_merge = Ok true
  ∧ Reorder_same_as sample_reorder_swap sample_merge = Ok true.
Proof. repeat split; by vm_compute. Qed.

(** ** TensorDomain::same_as, axis by axis *)

Lemma axes_same_as_Forall2 (l k : list IterDomain) :
  length l = length k →
  axes_same_as l k = true ↔ Forall2 (λ x y, IterDomain_same_as x y = true) l k.
Proof.
  unfold axes_same_as. revert k.
  induction l as [|x l IH]; intros [|y k] Hlen; try discriminate.
  - split; [constructor|done].
  - cbn [zip zip_with forallb fst snd]. rewrite andb_true_iff, Forall2_cons.
    injection Hlen as Hlen. by rewrite IH.
Qed.

(** X1.  Within the ranks an [int] counts, [TensorDomain::same_as] never
    fails; it is false on domains of different rank, and true exactly on
    domains whose axes are pairwise [same_as], in order. *)
Theorem TensorDomain_same_as_pairwise (this other : TensorDomain) :
  TensorDomain_size this - 1 ≤ int_max →
  (∃ r, TensorDomain_same_as this other = Ok r)
  ∧ (TensorDomain_size this ≠ TensorDomain_size other →
     TensorDomain_same_as this other = Ok false)
  ∧ (TensorDomain_same_as this other = Ok true ↔
     Forall2 (λ x y, IterDomain_same_as x y = true) (domain this) (domain other)).
Proof.
  intros Hmax. rewrite TensorDomain_same_as_eq by done.
  split; [eauto|]. split.
  - intros Hne. rewrite bool_decide_eq_false_2; [done|].
    intros Heq. apply Hne. unfold TensorDomain_size. by rewrite Heq.
  - case_bool_decide as Hlen; cbn [andb].
    + rewrite <- (axes_same_as_Forall2 _ _ Hlen). split; congruence.
    + split; [done|]. by intros ?%Forall2_length.
Qed.

Lemma TensorDomain_same_as_pairwise_witness :
  TensorDomain_same_as sample_domain sample_square = Ok false.
Proof.
  apply (TensorDomain_same_as_pairwise sample_domain sample_square);
    by vm_compute.
Defined.

(** ** computeAt, accepted or not *)

(** X2.  Whatever the legality procedure is, a call of [computeAt] that it
    accepts binds the target and the axis on the view, keeps the tensor and
    the domain of the view, and leaves every other view and the registered
    transformations as they were. *)
Theorem computeAt_binds
    (impl : gmap addr TensorView → addr → addr → Z → result unit)
    (F : Fusion) (this tv : addr) (axis : Z) (v : TensorView) :
  impl (views F) this tv axis = Ok tt →
  views F !! this = Some v →
  ∃ F' v',
    computeAt impl this tv axis F = (Ok tt, F')
    ∧ views F' !! this = Some v'
    ∧ getComputeAtView v' = Some tv
    ∧ getComputeAtAxis v' = axis
    ∧ TensorView_tensor v' = TensorView_tensor v
    ∧ TensorView_domain v' = TensorView_domain v
    ∧ (∀ p, p ≠ this → views F' !! p = views F !! p)
    ∧ exprs F' = exprs F
    ∧ next_name F' = next_name F.
Proof.
  intros Himpl Hv. eexists _, _.
  split; [by apply computeAt_accepted|]. cbn [views exprs next_name].
  split; [by rewrite lookup_insert_eq|].
  do 4 (split; [done|]).
  split; [|done]. intros p Hp. by rewrite lookup_insert_ne.
Qed.

Lemma computeAt_binds_witness :
  ∃ F' v',
    computeAt ComputeAt_impl 0%N 1%N 1 sample_fusion = (Ok tt, F')
    ∧ views F' !! 0%N = Some v'
    ∧ getComputeAtView v' = Some 1%N
    ∧ getComputeAtAxis v' = 1
    ∧ TensorView_tensor v' = TensorView_tensor sample_view
    ∧ TensorView_domain v' = TensorView_domain sample_view
    ∧ (∀ p, p ≠ 0%N → views F' !! p = views sample_fusion !! p)
    ∧ exprs F' = exprs sample_fusion
    ∧ next_name F' = next_name sample_fusion.
Proof.
  apply (computeAt_binds ComputeAt_impl sample_fusion 0%N 1%N 1 sample_view);
    by vm_compute.
Defined.

(** X3.  Whatever the legality procedure is, a call of [computeAt] that
    fails, for whichever reason, leaves the whole store as it was. *)
Theorem computeAt_fails_unchanged
    (impl : gmap addr TensorView → addr → addr → Z → result unit)
    (F F' : Fusion) (this tv : addr) (axis : Z) (e : error) :
  computeAt impl this tv axis F = (Err e, F') → F' = F.
Proof.
  unfold computeAt. run_M.
  destruct (impl (views F) this tv axis); [|congruence].
  destruct (views F !! this) as [v|]; cbn [deref views exprs next_name];
    [|congruence].
  rewrite lookup_insert_eq. cbn [deref]. congruence.
Qed.

Lemma computeAt_fails_unchanged_witness :
  (computeAt ComputeAt_impl 0%N 1%N 4 sample_fusion).2 = sample_fusion.
Proof.
  apply (computeAt_fails_unchanged ComputeAt_impl sample_fusion _ 0%N 1%N 4
           BoundsError).
  by vm_compute.
Defined.

(** ** Tensor::MakeDummyTensor *)

(** The axes the loop pushes when the next free name is [k]. *)
Lemma MakeDummyTensor_loop_run (n : nat) (sizes : list IterDomain) (F : Fusion) :
  MakeDummyTensor_loop n sizes F =
    (Ok (sizes ++ ((λ i : nat, IterDomain_new (Int_new (next_name F + N.of_nat i)))
                     <$> seq 0 n)),
     mkFusion (views F) (exprs F) (next_name F + N.of_nat n)).
Proof.
  revert sizes F. induction n as [|n IH]; intros sizes F.
  - cbn [MakeDummyTensor_loop seq fmap list_fmap]. run_M.
    rewrite app_nil_r, N.add_0_r. by destruct F.
  - cbn [MakeDummyTensor_loop]. run_M. rewrite IH. cbn [views exprs next_name].
    f_equal; [|f_equal; lia]. f_equal. rewrite <- app_assoc. f_equal.
    cbn [seq fmap list_fmap app]. rewrite N.add_0_r. f_equal.
    rewrite <- fmap_S_seq, <- list_fmap_compose.
    apply list_fmap_ext. intros _ i _. cbn. do 2 f_equal. lia.
Qed.

(** X4.  [MakeDummyTensor(ndims)] returns a tensor of type [Float] without
    contiguity, whose domain has [ndims] axes (none for a negative [ndims]),
    each serial, not a reduction and of an unresolved size of its own; it
    touches no view and registers no transformation. *)
Theorem MakeDummyTensor_dummy (ndims : Z) (F : Fusion) :
  ∃ t td F',
    MakeDummyTensor ndims F = (Ok t, F')
    ∧ Tensor_dtype (ptr_obj t) = DataType.Float
    ∧ contiguity_ (ptr_obj t) = None
    ∧ Tensor_domain (ptr_obj t) = Some td
    ∧ TensorDomain_size td = 0 `max` ndims
    ∧ Forall (λ id, parallel_method id = Serial
                    ∧ isReduction id = false
                    ∧ Int_value (IterDomain_size id) = None) (domain td)
    ∧ NoDup (IterDomain_size <$> domain td)
    ∧ views F' = views F
    ∧ exprs F' = exprs F.
Proof.
  eexists _, _, _. split.
  { unfold MakeDummyTensor. run_M. rewrite MakeDummyTensor_loop_run. done. }
  cbn [ptr_obj Tensor_new Tensor_dtype contiguity_ Tensor_domain Tensor_domain_
       views exprs app].
  do 3 (split; [done|]).
  split.
  { unfold TensorDomain_size. cbn [domain].
    rewrite length_fmap, length_seq. lia. }
  split.
  { cbn [domain]. apply Forall_fmap, Forall_forall. by intros i _. }
  split; [|done].
  cbn [domain]. rewrite <- list_fmap_compose.
  apply NoDup_fmap_2_strong; [|apply NoDup_seq].
  intros i j _ _ [= Hij]. lia.
Qed.

(** ** The free functions *)

Section transform_view.

Context {E : Type} (f : TensorDomain → result (TensorDomain * E)) (node : E → Expr).

(** An accepted transformation is registered, and the new domain is viewed
    with the same tensor at a new address; the views there were stay. *)
Lemma transform_view_accepted (F : Fusion) (tv : addr) (v : TensorView)
    (td out : TensorDomain) (e : E) :
  views F !! tv = Some v → TensorView_domain v = Some td → f td = Ok (out, e) →
  transform_view f node tv F =
    (Ok (next_name F),
     mkFusion
       (<[next_name F := TensorView_new2 (TensorView_tensor v) (Some out)]> (views F))
       (node e :: exprs F) (N.succ (next_name F))).
Proof.
  intros Hv Htd Hf. unfold transform_view, alloc_view. run_M.
  rewrite Hv. cbn [deref]. rewrite Htd. cbn [deref]. by rewrite Hf.
Qed.

(** A rejected transformation commits nothing. *)
Lemma transform_view_rejected (F : Fusion) (tv : addr) (v : TensorView)
    (td : TensorDomain) (e : error) :
  views F !! tv = Some v → TensorView_domain v = Some td → f td = Err e →
  transform_view f node tv F = (Err e, F).
Proof.
  intros Hv Htd Hf. unfold transform_view, alloc_view. run_M.
  rewrite Hv. cbn [deref]. rewrite Htd. cbn [deref]. by rewrite Hf.
Qed.

End transform_view.

(** The scenario of the spec: the ranks are 3, 4, 3 and 3, and axis 0 after
    the reordering is [same_as] axis 2 before it. *)
Example scenario_run :
  (scenario (mkFusion ∅ [] 0)).1 = Ok ([Some 3; Some 4; Some 3; Some 3], Some true).
Proof. by vm_compute. Qed.

(** ** Split::same_as and Merge::same_as *)



(** ** TensorDomain::same_as as an equivalence *)

Lemma Int_same_as_trans (x y z : Int) :
  Int_same_as x y = true → Int_same_as y z = true → Int_same_as x z = true.
Proof. unfold Int_same_as. rewrite !bool_decide_eq_true. congruence. Qed.

Lemma IterDomain_same_as_trans (a b c : IterDomain) :
  IterDomain_same_as a b = true → IterDomain_same_as b c = true →
  IterDomain_same_as a c = true.
Proof.
  rewrite !IterDomain_same_as_true. intros (? & ? & ?) (? & ? & ?).
  split; [congruence|]. split; [congruence|]. by eapply Int_same_as_trans.
Qed.

Lemma axes_same_as_sym (l k : list IterDomain) :
  axes_same_as l k = axes_same_as k l.
Proof.
  unfold axes_same_as. revert k.
  induction l as [|x l IH]; intros [|y k]; [done..|].
  cbn [zip zip_with forallb fst snd].
  by rewrite IH, IterDomain_same_as_sym.
Qed.

Lemma TensorDomain_same_as_sym (a b : TensorDomain) :
  int_rank a → int_rank b → TensorDomain_same_as a b = TensorDomain_same_as b a.
Proof.
  intros Ha Hb. rewrite !TensorDomain_same_as_eq by done.
  rewrite axes_same_as_sym. do 2 f_equal. apply bool_decide_ext. split; congruence.
Qed.

Lemma TensorDomain_same_as_Forall2 (a b : TensorDomain) :
  int_rank a →
  TensorDomain_same_as a b = Ok true ↔
    Forall2 (λ x y, IterDomain_same_as x y = true) (domain a) (domain b).
Proof.
  intros Ha. rewrite TensorDomain_same_as_eq by done.
  case_bool_decide as Hlen; cbn [andb].
  - rewrite <- (axes_same_as_Forall2 _ _ Hlen). split; congruence.
  - split; [done|]. by intros ?%Forall2_length.
Qed.

(** X6.  On domains whose rank an [int] counts, [TensorDomain::same_as] is
    an equivalence: a domain is [same_as] itself, the comparison gives the
    same answer in both directions, and it is transitive. *)
Theorem TensorDomain_same_as_equivalence (a b c : TensorDomain) :
  int_rank a → int_rank b →
  TensorDomain_same_as a a = Ok true
  ∧ TensorDomain_same_as a b = TensorDomain_same_as b a
  ∧ (TensorDomain_same_as a b = Ok true →
     TensorDomain_same_as b c = Ok true →
     TensorDomain_same_as a c = Ok true).
Proof.
  intros Ha Hb. split; [by apply TensorDomain_same_as_refl|].
  split; [by apply TensorDomain_same_as_sym|].
  rewrite !TensorDomain_same_as_Forall2 by done.
  apply Forall2_trans. apply IterDomain_same_as_trans.
Qed.

Lemma TensorDomain_same_as_equivalence_witness :
  TensorDomain_same_as sample_domain sample_domain = Ok true
  ∧ TensorDomain_same_as sample_domain sample_domain_12
    = TensorDomain_same_as sample_domain_12 sample_domain
  ∧ (TensorDomain_same_as sample_domain sample_domain_12 = Ok true →
     TensorDomain_same_as sample_domain_12 sample_square = Ok true →
     TensorDomain_same_as sample_domain sample_square = Ok true).
Proof.
  apply (TensorDomain_same_as_equivalence sample_domain sample_domain_12
           sample_square); by vm_compute.
Defined.

(** ** same_as domains, read through axis *)

(** X7.  Two domains that are [same_as] answer [axis(i)] alike for every
    [int] [i], negative ones included: either both fail with the bounds
    error, or both return an axis and the two axes are [same_as]. *)
Theorem TensorDomain_same_as_axis (a b : TensorDomain) (i : Z) :
  int_rank a → is_int i →
  TensorDomain_same_as a b = Ok true →
  (TensorDomain_axis a i = Err BoundsError
   ∧ TensorDomain_axis b i = Err BoundsError)
  ∨ ∃ x y,
      TensorDomain_axis a i = Ok x ∧ TensorDomain_axis b i = Ok y
      ∧ IterDomain_same_as x y = true.
Proof.
  intros Ha Hi Hsame. unfold int_rank in Ha.
  apply TensorDomain_same_as_Forall2 in Hsame; [|done].
  assert (TensorDomain_size b = TensorDomain_size a) as Hsize.
  { unfold TensorDomain_size. by rewrite (Forall2_length _ _ _ Hsame). }
  pose proof (TensorDomain_size_nonneg a) as Hs.
  assert (∀ j, is_int j → 0 ≤ j < TensorDomain_size a →
            ∃ x y, TensorDomain_axis a j = Ok x ∧ TensorDomain_axis b j = Ok y
                   ∧ IterDomain_same_as x y = true) as Hin.
  { intros j Hj Hr.
    destruct (TensorDomain_axis_nonneg a j Hj Hr) as (x & Hx & Hax).
    destruct (TensorDomain_axis_nonneg b j Hj) as (y & Hy & Hay); [lia|].
    exists x, y. split; [done|]. split; [done|].
    exact (Forall2_lookup_lr _ _ _ _ _ _ Hsame Hx Hy). }
  destruct (Z.le_gt_cases (TensorDomain_size a) i) as [Hge|Hlt].
  { left. by rewrite !TensorDomain_axis_too_large by (done || lia). }
  destruct (Z.le_gt_cases 0 i) as [H0|Hneg].
  { right. apply Hin; [done|lia]. }
  destruct (Z.le_gt_cases (- TensorDomain_size a) i) as [Hlo|Hlo].
  - right.
    rewrite (TensorDomain_axis_negative a), (TensorDomain_axis_negative b)
      by (done || int_lia).
    rewrite Hsize. apply Hin; int_lia.
  - left. by rewrite !TensorDomain_axis_too_small by (done || lia).
Qed.

Lemma TensorDomain_same_as_axis_witness :
  (TensorDomain_axis sample_domain (-1) = Err BoundsError
   ∧ TensorDomain_axis sample_domain (-1) = Err BoundsError)
  ∨ ∃ x y,
      TensorDomain_axis sample_domain (-1) = Ok x
      ∧ TensorDomain_axis sample_domain (-1) = Ok y
      ∧ IterDomain_same_as x y = true.
Proof.
  apply (TensorDomain_same_as_axis sample_domain sample_domain (-1));
    by vm_compute.
Defined.

(** ** TensorView::same_as and null domains *)

(** X8.  [TensorView::same_as] looks at the domains only when the tensors
    compare equal: it is false, whatever the domains are, when they do not;
    when they do, it dereferences both domains, so it fails on a view whose
    domain is null (the view of a tensor built without one), and otherwise
    it is the comparison of the two domains. *)
Theorem TensorView_same_as_cases (this other : TensorView) :
  (Statement_same_as (TensorView_tensor this) (TensorView_tensor other) = false →
   TensorView_same_as this other = Ok false)
  ∧ (Statement_same_as (TensorView_tensor this) (TensorView_tensor other) = true →
     (TensorView_domain this = None ∨ TensorView_domain other = None →
      TensorView_same_as this other = Err NullPointer)
     ∧ (∀ d d', TensorView_domain this = Some d →
                TensorView_domain other = Some d' →
                TensorView_same_as this other = TensorDomain_same_as d d'))
  ∧ (∀ t dt, TensorView_same_as (TensorView_new1 (Ptr t (Tensor_new dt None)))
               (TensorView_new1 (Ptr t (Tensor_new dt None))) = Err NullPointer)
  ∧ (∀ t d, int_rank d →
       TensorView_same_as (TensorView_new2 t (Some d)) (TensorView_new2 t (Some d))
       = Ok true).
Proof.
  unfold TensorView_same_as, and_then. cbn [mbind result_bind].
  split; [by intros ->|]. split; [intros ->; split|split].
  - intros [Hn|Hn]; rewrite Hn; [done|].
    by destruct (TensorView_domain this).
  - by intros d d' -> ->.
  - intros t dt. unfold Statement_same_as. by rewrite bool_decide_eq_true_2.
  - intros t d Hd. unfold Statement_same_as. rewrite bool_decide_eq_true_2 by done.
    cbn [TensorView_domain TensorView_new2 domain_ deref mbind result_bind].
    by apply TensorDomain_same_as_refl.
Qed.

(** ** Sequences of compute-at calls *)

Section computeAt_calls_properties.

Variable impl : gmap addr TensorView → addr → addr → Z → result unit.




End computeAt_calls_properties.





(** X11.  After an accepted call [v.computeAt(t1, a1)], a second call
    [v.computeAt(t2, a2)] leaves [v] bound to [t2] and [a2] if it is
    accepted, and bound to [t1] and [a1], as the first call left it, if it
    fails. *)
Theorem computeAt_rebinds
    (impl : gmap addr TensorView → addr → addr → Z → result unit)
    (F F1 F2 : Fusion) (this t1 t2 : addr) (a1 a2 : Z) (r : result unit) :
  computeAt impl this t1 a1 F = (Ok tt, F1) →
  computeAt impl this t2 a2 F1 = (r, F2) →
  ∃ v, views F2 !! this = Some v
       ∧ (r = Ok tt → getComputeAtView v = Some t2 ∧ getComputeAtAxis v = a2)
       ∧ (r ≠ Ok tt → getComputeAtView v = Some t1 ∧ getComputeAtAxis v = a1).
Proof.
  intros H1 H2.
  assert (∃ v1, views F1 !! this = Some v1
                ∧ getComputeAtView v1 = Some t1 ∧ getComputeAtAxis v1 = a1)
    as (v1 & Hv1 & Hview1 & Haxis1).
  { destruct (impl (views F) this t1 a1) as [[]|e] eqn:Himpl.
    - destruct (views F !! this) as [v|] eqn:Hv.
      + rewrite (computeAt_accepted impl F this t1 a1 v Himpl Hv) in H1.
        injection H1 as <-. cbn [views]. rewrite lookup_insert_eq. eauto.
      + revert H1. unfold computeAt. run_M. by rewrite Himpl, Hv.
    - by rewrite (computeAt_rejected impl F this t1 a1 e Himpl) in H1. }
  destruct (impl (views F1) this t2 a2) as [[]|e] eqn:Himpl.
  - rewrite (computeAt_accepted impl F1 this t2 a2 v1 Himpl Hv1) in H2.
    injection H2 as <- <-. cbn [views]. rewrite lookup_insert_eq.
    eexists. split; [done|]. split; [done|]. by intros [].
  - rewrite (computeAt_rejected impl F1 this t2 a2 e Himpl) in H2.
    injection H2 as <- <-. exists v1. split; [done|]. split; [done|]. done.
Qed.

Lemma computeAt_rebinds_witness :
  ∃ v, views (computeAt sample_impl 0%N 0%N 5
                (computeAt sample_impl 0%N 1%N 2 sample_fusion).2).2 !! 0%N = Some v
       ∧ getComputeAtView v = Some 1%N ∧ getComputeAtAxis v = 2.
Proof.
  destruct (computeAt_rebinds sample_impl sample_fusion
              (computeAt sample_impl 0%N 1%N 2 sample_fusion).2
              (computeAt sample_impl 0%N 0%N 5
                 (computeAt sample_impl 0%N 1%N 2 sample_fusion).2).2
              0%N 1%N 0%N 2 5 (Err LegalityError))
    as (v & Hv & _ & Hkeep); [by vm_compute..|].
  exists v. split; [exact Hv|]. by apply Hkeep.
Defined.

(** ** Views of dummy tensors *)

(** X12.  For [ndims] up to the ranks an [int] counts, a view of
    [MakeDummyTensor(ndims)] has a domain, on which [axis(i)] returns a
    serial axis that is no reduction exactly for [-n ≤ i < n], with [n] the
    larger of 0 and [ndims], and fails for every other [int]; the view is
    [same_as] itself, and has no compute-at binding. *)
Theorem MakeDummyTensor_view (ndims : Z) (F : Fusion) (i : Z) :
  ndims - 1 ≤ int_max → is_int i →
  ∃ t td F',
    MakeDummyTensor ndims F = (Ok t, F')
    ∧ TensorView_domain (TensorView_new1 t) = Some td
    ∧ (- (0 `max` ndims) ≤ i < 0 `max` ndims →
       ∃ x, TensorDomain_axis td i = Ok x
            ∧ parallel_method x = Serial ∧ isReduction x = false)
    ∧ (i < - (0 `max` ndims) ∨ 0 `max` ndims ≤ i →
       TensorDomain_axis td i = Err BoundsError)
    ∧ TensorView_same_as (TensorView_new1 t) (TensorView_new1 t) = Ok true
    ∧ getComputeAtView (TensorView_new1 t) = None.
Proof.
  intros Hmax Hi. eexists _, _, _. split.
  { unfold MakeDummyTensor. run_M. rewrite MakeDummyTensor_loop_run. done. }
  split; [reflexivity|].
  cbn [app]. remember (mkTensorDomain _) as td eqn:Htd.
  assert (TensorDomain_size td = 0 `max` ndims) as Hsize.
  { unfold TensorDomain_size. rewrite Htd. cbn [domain].
    rewrite length_fmap, length_seq. lia. }
  assert (Forall (λ x, parallel_method x = Serial ∧ isReduction x = false)
            (domain td)) as Hall.
  { rewrite Htd. cbn [domain]. apply Forall_fmap, Forall_forall. by intros j _. }
  assert (∀ j, is_int j → 0 ≤ j < TensorDomain_size td →
            ∃ x, TensorDomain_axis td j = Ok x
                 ∧ parallel_method x = Serial ∧ isReduction x = false) as Hin.
  { intros j Hj Hr.
    destruct (TensorDomain_axis_nonneg td j Hj Hr) as (x & Hx & Hax).
    exists x. split; [done|].
    exact (proj1 (Forall_lookup _ _) Hall _ _ Hx). }
  rewrite <- Hsize.
  split; [|split; [|split; [|done]]].
  - intros Hr. destruct (Z.le_gt_cases 0 i) as [H0|Hneg].
    + apply Hin; [done|lia].
    + rewrite TensorDomain_axis_negative by (done || int_lia).
      apply Hin; int_lia.
  - intros [Hlo|Hhi].
    + by apply TensorDomain_axis_too_small.
    + by apply TensorDomain_axis_too_large.
  - unfold TensorView_same_as, and_then, Statement_same_as.
    rewrite bool_decide_eq_true_2 by done.
    cbn [mbind result_bind TensorView_domain TensorView_new1 domain_ ptr_obj
         Tensor_domain Tensor_new Tensor_domain_ deref].
    apply TensorDomain_same_as_refl. int_lia.
Qed.

Lemma MakeDummyTensor_view_witness :
  ∃ t td F',
    MakeDummyTensor 3 sample_fusion = (Ok t, F')
    ∧ TensorView_domain (TensorView_new1 t) = Some td
    ∧ (- (0 `max` 3) ≤ -3 < 0 `max` 3 →
       ∃ x, TensorDomain_axis td (-3) = Ok x
            ∧ parallel_method x = Serial ∧ isReduction x = false)
    ∧ (-3 < - (0 `max` 3) ∨ 0 `max` 3 ≤ -3 →
       TensorDomain_axis td (-3) = Err BoundsError)
    ∧ TensorView_same_as (TensorView_new1 t) (TensorView_new1 t) = Ok true
    ∧ getComputeAtView (TensorView_new1 t) = None.
Proof.
  apply (MakeDummyTensor_view 3 sample_fusion (-3)); by vm_compute.
Defined.

(** ** Split::same_as and Merge::same_as, both ways *)

Lemma and_then_ext (a a' b b' : result bool) :
  a = a' → b = b' → a <&&> b = a' <&&> b'.
Proof. by intros -> ->. Qed.

(** X13.  On records whose domains have ranks an [int] counts,
    [Split::same_as] and [Merge::same_as] hold of a record and itself, and
    give the same answer in both directions. *)
Theorem Split_Merge_same_as_sym :
  (∀ this other : Split,
     int_rank (Split_out_ this) → int_rank (Split_in_ this) →
     int_rank (Split_out_ other) → int_rank (Split_in_ other) →
     Split_same_as this this = Ok true
     ∧ Split_same_as this other = Split_same_as other this)
  ∧ (∀ this other : Merge,
       int_rank (Merge_out_ this) → int_rank (Merge_in_ this) →
       int_rank (Merge_out_ other) → int_rank (Merge_in_ other) →
       Merge_same_as this this = Ok true
       ∧ Merge_same_as this other = Merge_same_as other this).
Proof.
  split; intros this other Ho Hi Ho' Hi'.
  - split.
    + unfold Split_same_as.
      rewrite !TensorDomain_same_as_refl by done.
      by rewrite bool_decide_eq_true_2, Int_same_as_refl.
    + unfold Split_same_as.
      repeat apply and_then_ext; try by apply TensorDomain_same_as_sym.
      * f_equal. apply bool_decide_ext. split; congruence.
      * by rewrite Int_same_as_sym.
  - split.
    + unfold Merge_same_as.
      rewrite !TensorDomain_same_as_refl by done.
      by rewrite bool_decide_eq_true_2.
    + unfold Merge_same_as.
      repeat apply and_then_ext; try by apply TensorDomain_same_as_sym.
      f_equal. apply bool_decide_ext. split; congruence.
Qed.

(** ** The counter of same_as beyond the range of int *)

(** X14.  In a domain of more than 2^31 axes, the loop of
    [TensorDomain::same_as] hands [axis] a counter [i ≥ 2^31] that no longer
    is the [int] [i]: it is read as the negative [i - 2^32], to which [axis]
    adds the rank, so the axis read is the one at position [i + r - 2^32],
    before position [i]. *)
Theorem TensorDomain_same_as_counter_wraps (d : TensorDomain) (i : Z) :
  2 ^ 31 ≤ i < TensorDomain_size d →
  TensorDomain_size d < 2 ^ 32 →
  i + TensorDomain_size d < 3 * 2 ^ 31 →
  0 ≤ i + TensorDomain_size d - 2 ^ 32 < i
  ∧ TensorDomain_axis d (to_int i)
    = TensorDomain_axis d (i + TensorDomain_size d - 2 ^ 32)
  ∧ ∃ x, TensorDomain_axis d (to_int i) = Ok x
         ∧ domain d !! Z.to_nat (i + TensorDomain_size d - 2 ^ 32) = Some x.
Proof.
  intros Hi Hr Hsum.
  assert (to_int i = i - 2 ^ 32) as -> by int_arith.
  assert (is_int (i - 2 ^ 32)) as Hint by int_lia.
  split; [lia|].
  rewrite TensorDomain_axis_neg_eq by (done || int_lia).
  rewrite TensorDomain_axis_nonneg_eq by lia.
  replace (i - 2 ^ 32 + TensorDomain_size d)
    with (i + TensorDomain_size d - 2 ^ 32) by lia.
  rewrite !bool_decide_eq_true_2 by lia.
  split; [done|].
  destruct (lookup_lt_is_Some_2 (domain d)
              (Z.to_nat (i + TensorDomain_size d - 2 ^ 32))) as [x Hx].
  { unfold TensorDomain_size in *. lia. }
  exists x. by rewrite Hx.
Qed.

Lemma sample_wide_domain_size : TensorDomain_size sample_wide_domain = 2 ^ 31 + 1.
Proof.
  unfold TensorDomain_size, sample_wide_domain. cbn [domain].
  rewrite length_replicate. apply Z2Nat.id. lia.
Qed.

Lemma TensorDomain_same_as_counter_wraps_witness :
  TensorDomain_axis sample_wide_domain (to_int (2 ^ 31))
  = TensorDomain_axis sample_wide_domain
      (2 ^ 31 + TensorDomain_size sample_wide_domain - 2 ^ 32).
Proof.
  apply (TensorDomain_same_as_counter_wraps sample_wide_domain (2 ^ 31));
    rewrite sample_wide_domain_size; lia.
Defined.
